(** * HireFree: the approval transaction route and the freelancer
      registration form

    A shallow embedding of
    - [bot/frame/app/frames/deposit/tx/approval/route.ts] (the [POST]
      handler that prepares an ERC-20 [approve] transaction), and
    - the freelancer registration page (its [handleSkillsChange],
      [handleSubmit] and [ErrorMessage]),
    together with the properties their specification states.

    JavaScript strings are embedded as [string]; a literal stands for its
    UTF-8 bytes.  Exceptions are embedded in an error monad, React state
    as an explicit record threaded through the handler. *)

From Stdlib Require Import ZArith Ascii String.
From stdpp Require Import base option strings list gmap pretty.

Set Warnings "-register-all".
Local Open Scope string_scope.

(** ** Exceptions and completions *)

Module Js.

(** The values a [throw] carries in the two programs.  All of them are
    instances of [Error].  [Error m] is [new Error(m)] raised by the
    program itself; [TypeError] and [SyntaxError] are raised by the
    platform (a property read on [null] or [undefined], a call of a
    non-function, [fetch] failing, a body that is not JSON) and
    [LibraryError] by the viem package.  The message of a platform or
    library error is the engine's own text, never one of the messages the
    programs construct. *)
Inductive Thrown : Type :=
  | Error (message : string)
  | TypeError
  | SyntaxError
  | LibraryError (name : string).

(** A computation either completes normally or throws. *)
Inductive Completion (A : Type) : Type :=
  | Normal (a : A)
  | Throw (e : Thrown).
Arguments Normal {A} a.
Arguments Throw {A} e.

Definition bind {A B} (c : Completion A) (k : A -> Completion B) : Completion B :=
  match c with
  | Normal a => k a
  | Throw e => Throw e
  end.

#[global] Instance Completion_ret : MRet Completion := fun A a => Normal a.
#[global] Instance Completion_bind : MBind Completion := fun A B k c => bind c k.

(** [try { body } catch (error) { handler }] with a [return] in both. *)
Definition try_catch {A} (body : Completion A) (handler : Thrown -> A) : A :=
  match body with
  | Normal a => a
  | Throw e => handler e
  end.

(** ** JSON values

    What [JSON.parse] produces.  Numbers are the integers (which
    JavaScript prints in plain decimal while below 10^21 in magnitude);
    an object is the list of its members in source order, where a later
    duplicate of a key overrides an earlier one. *)
Inductive json : Type :=
  | JNull
  | JBool (b : bool)
  | JNum (z : Z)
  | JStr (s : string)
  | JArr (elements : list json)
  | JObj (members : list (string * json)).

(** A JavaScript value that came from JSON: [None] is [undefined]. *)
Abbreviation value := (option json).
Definition undefined : value := None.

(** ToBoolean. *)
Definition truthy (v : value) : bool :=
  match v with
  | None => false
  | Some JNull => false
  | Some (JBool b) => b
  | Some (JNum z) => negb (z =? 0)%Z
  | Some (JStr s) => negb (String.eqb s "")
  | Some (JArr _) => true
  | Some (JObj _) => true
  end.

(** [a || b]. *)
Definition or_else (a : value) (b : json) : json :=
  match a with
  | Some j => if truthy a then j else b
  | None => b
  end.

(** The member of an object literal that a property read sees: the last
    one with that key. *)
Fixpoint own_member (key : string) (members : list (string * json)) : value :=
  match members with
  | [] => None
  | (k, v) :: rest =>
      match own_member key rest with
      | Some later => Some later
      | None => if String.eqb k key then Some v else None
      end
  end.

(** [v.key] for a property name that no built-in prototype defines
    ([untrustedData], [trustedData], [network], [inputText], [message]):
    the own member of an object, [undefined] on every other value, and a
    [TypeError] on [null]. *)
Definition get (v : json) (key : string) : Completion value :=
  match v with
  | JNull => Throw TypeError
  | JObj members => Normal (own_member key members)
  | _ => Normal undefined
  end.

(** The same read on a value that may be [undefined]. *)
Definition get_of (v : value) (key : string) : Completion value :=
  match v with
  | None => Throw TypeError
  | Some j => get j key
  end.

(** [v === s] for a string literal [s]. *)
Definition strict_equal (v : value) (s : string) : bool :=
  match v with
  | Some (JStr t) => String.eqb t s
  | _ => false
  end.

Definition has_own (key : string) (members : list (string * json)) : bool :=
  match own_member key members with Some _ => true | None => false end.

(** ToString.  An array joins its elements with commas, [null] elements
    printing as nothing.  An object prints as [[object Object]] through
    [Object.prototype.toString], unless it has a member named [toString]:
    that member is not callable, [valueOf] gives back the object, and the
    conversion throws a [TypeError]. *)
Fixpoint to_string (v : json) : Completion string :=
  match v with
  | JNull => Normal "null"
  | JBool true => Normal "true"
  | JBool false => Normal "false"
  | JNum z => Normal (pretty z)
  | JStr s => Normal s
  | JArr elements =>
      (fix join (l : list json) : Completion string :=
         match l with
         | [] => Normal ""
         | x :: rest =>
             s ← match x with JNull => Normal "" | _ => to_string x end;
             match rest with
             | [] => Normal s
             | _ => r ← join rest; Normal (s +:+ "," +:+ r)
             end
         end) elements
  | JObj members =>
      if has_own "toString" members then Throw TypeError
      else Normal "[object Object]"
  end.

End Js.

(** ** String operations of the JavaScript library *)

Module Str.

Definition is_digit (c : ascii) : bool :=
  (48 <=? nat_of_ascii c)%nat && (nat_of_ascii c <=? 57)%nat.

Fixpoint all_digits (s : string) : bool :=
  match s with
  | "" => true
  | String c rest => is_digit c && all_digits rest
  end.

(** [s.split(sep)] for a one-character separator: never empty, one more
    piece than there are separators. *)
Fixpoint split (sep : ascii) (s : string) : list string :=
  match s with
  | "" => [""]
  | String c rest =>
      if Ascii.eqb c sep then "" :: split sep rest
      else match split sep rest with
           | piece :: pieces => String c piece :: pieces
           | [] => [String c ""]
           end
  end.

(** [pieces.join(sep)]. *)
Fixpoint join (sep : ascii) (pieces : list string) : string :=
  match pieces with
  | [] => ""
  | [piece] => piece
  | piece :: rest => piece +:+ String sep (join sep rest)
  end.

Definition startsWith (c : ascii) (s : string) : bool :=
  match s with
  | String d _ => Ascii.eqb d c
  | "" => false
  end.

(** [s.slice(from)] and [s.slice(from, to)] for [0 <= from <= to]. *)
Definition slice_from (from : nat) (s : string) : string :=
  String.substring from (String.length s - from) s.
Definition slice (from to : nat) (s : string) : string :=
  String.substring from (to - from) s.

Fixpoint repeat_char (c : ascii) (n : nat) : string :=
  match n with
  | O => ""
  | S n' => String c (repeat_char c n')
  end.

Definition padEnd (width : nat) (c : ascii) (s : string) : string :=
  s +:+ repeat_char c (width - String.length s).
Definition padStart (width : nat) (c : ascii) (s : string) : string :=
  repeat_char c (width - String.length s) +:+ s.

(** [s.replace(/(0+)$/, '')]. *)
Fixpoint strip_trailing_zeros (s : string) : string :=
  match s with
  | "" => ""
  | String c rest =>
      match strip_trailing_zeros rest with
      | "" => if Ascii.eqb c "0" then "" else String c ""
      | kept => String c kept
      end
  end.

(** JavaScript's white space and line terminators, as UTF-8: TAB, LF,
    VT, FF, CR, SP; U+00A0; U+1680; U+2000 to U+200A, U+2028, U+2029,
    U+202F; U+205F; U+3000; U+FEFF. *)
Definition space1 (a : ascii) : bool :=
  let a := nat_of_ascii a in
  ((9 <=? a) && (a <=? 13) || (a =? 32))%nat.
Definition space2 (a b : ascii) : bool :=
  ((nat_of_ascii a =? 194) && (nat_of_ascii b =? 160))%nat.
Definition space3 (a b c : ascii) : bool :=
  let a := nat_of_ascii a in
  let b := nat_of_ascii b in
  let c := nat_of_ascii c in
  ((a =? 225) && (b =? 154) && (c =? 128)
   || (a =? 226) && (b =? 128)
      && ((128 <=? c) && (c <=? 138) || (c =? 168) || (c =? 169) || (c =? 175))
   || (a =? 226) && (b =? 129) && (c =? 159)
   || (a =? 227) && (b =? 128) && (c =? 128)
   || (a =? 239) && (b =? 187) && (c =? 191))%nat.

(** The same tests on bytes met in reading direction: with [backwards]
    the string is read from its end, so the bytes of a character arrive
    last byte first. *)
Definition space2_in (backwards : bool) (a b : ascii) : bool :=
  if backwards then space2 b a else space2 a b.
Definition space3_in (backwards : bool) (a b c : ascii) : bool :=
  if backwards then space3 c b a else space3 a b c.

(** Drops the white space a string starts with. *)
Fixpoint skip_space (backwards : bool) (s : string) : string :=
  match s with
  | "" => ""
  | String a s1 =>
      if space1 a then skip_space backwards s1
      else match s1 with
           | "" => s
           | String b s2 =>
               if space2_in backwards a b then skip_space backwards s2
               else match s2 with
                    | "" => s
                    | String c s3 =>
                        if space3_in backwards a b c
                        then skip_space backwards s3
                        else s
                    end
           end
  end.

Definition trimStart (s : string) : string := skip_space false s.
Definition trimEnd (s : string) : string :=
  String.rev (skip_space true (String.rev s)).
(** [s.trim()]. *)
Definition trim (s : string) : string := trimEnd (trimStart s).

(** *** Vocabulary of the specification *)

Fixpoint contains (c : ascii) (s : string) : bool :=
  match s with
  | "" => false
  | String d rest => Ascii.eqb d c || contains c rest
  end.

Fixpoint count (c : ascii) (s : string) : nat :=
  match s with
  | "" => O
  | String d rest => ((if Ascii.eqb d c then 1 else 0) + count c rest)%nat
  end.

(** A string of white space only, in reading direction. *)
Inductive white_in (backwards : bool) : string -> Prop :=
  | white_nil : white_in backwards ""
  | white_1 a s :
      space1 a = true -> white_in backwards s -> white_in backwards (String a s)
  | white_2 a b s :
      space2_in backwards a b = true -> white_in backwards s ->
      white_in backwards (String a (String b s))
  | white_3 a b c s :
      space3_in backwards a b c = true -> white_in backwards s ->
      white_in backwards (String a (String b (String c s))).

(** The string starts with a white-space character, in reading
    direction. *)
Definition starts_in (backwards : bool) (s : string) : bool :=
  match s with
  | String a (String b (String c _)) =>
      space1 a || space2_in backwards a b || space3_in backwards a b c
  | String a (String b "") => space1 a || space2_in backwards a b
  | String a "" => space1 a
  | "" => false
  end.

Definition white (s : string) : Prop := white_in false s.
Definition starts_with_space (s : string) : bool := starts_in false s.
Definition ends_with_space (s : string) : bool := starts_in true (String.rev s).

(** [t] is [s] without the white space at its two ends. *)
Definition trimmed (s t : string) : Prop :=
  exists lead trail,
    s = lead +:+ t +:+ trail /\ white lead /\ white trail /\
    starts_with_space t = false /\ ends_with_space t = false.

End Str.

(** ** The viem package: [parseUnits] *)

Module Viem.
Import Js.

(** [Math.round(Number(text))] is floating-point arithmetic and is left
    to the engine. *)
Class Engine := {
  Math_round_Number : string -> Z;
  (** On one digit, a dot and more digits the result is that digit or the
      next number. *)
  Math_round_Number_range (d : ascii) (ds : string) :
    Str.is_digit d = true -> Str.all_digits ds = true ->
    (0 <= Math_round_Number (String d ("." +:+ ds)) <= 10)%Z
}.

(** The shape of a numeral: the whole string is an optional minus sign,
    decimal digits, an optional dot and decimal digits. *)
Fixpoint digits_dot_digits (s : string) : bool :=
  match s with
  | "" => true
  | String c rest =>
      if Str.is_digit c then digits_dot_digits rest
      else Ascii.eqb c "." && Str.all_digits rest
  end.
Definition numeral_shape (s : string) : bool :=
  match s with
  | String "-" rest => digits_dot_digits rest
  | _ => digits_dot_digits s
  end.

Fixpoint has_digit (s : string) : bool :=
  match s with
  | "" => false
  | String c rest => Str.is_digit c || has_digit rest
  end.

(** A valid decimal numeral: of that shape, and with a digit in it.  A
    sign or a dot alone, or the two together, write no number. *)
Definition decimal_number (s : string) : bool :=
  numeral_shape s && has_digit s.

(** The number a string of decimal digits writes (0 for the empty
    string). *)
Fixpoint digits_value (acc : Z) (s : string) : option Z :=
  match s with
  | "" => Some acc
  | String c rest =>
      if Str.is_digit c
      then digits_value (10 * acc + (Z.of_nat (nat_of_ascii c) - 48))%Z rest
      else None
  end.

(** [BigInt(s)] on the strings [parseUnits] builds: decimal digits,
    after an optional minus sign.  (Other spellings [BigInt] accepts,
    such as hexadecimal ones, are rejected before they reach it.) *)
Definition BigInt (s : string) : Completion Z :=
  match s with
  | String "-" "" => Throw SyntaxError
  | String "-" rest =>
      match digits_value 0 rest with
      | Some n => Normal (- n)%Z
      | None => Throw SyntaxError
      end
  | _ =>
      match digits_value 0 s with
      | Some n => Normal n
      | None => Throw SyntaxError
      end
  end.

(** The number a string of decimal digits writes. *)
Definition number_of (digits : string) : Z := default 0%Z (digits_value 0 digits).

(** A decimal numeral written from its parts: a minus sign or none, the
    integer digits, and a dot with the fraction digits or neither. *)
Definition numeral (negative : bool) (integer : string) (fraction : option string)
  : string :=
  (if negative then "-" else "") +:+ integer
  +:+ match fraction with Some f => String "." f | None => "" end.

(** The number the numeral writes, in units of 10^-6. *)
Definition base_units (negative : bool) (integer : string) (fraction : option string)
  : Z :=
  let f := default "" fraction in
  ((if negative then -1 else 1)
   * (number_of (integer +:+ f) * 10 ^ (6 - Z.of_nat (String.length f))))%Z.

Section parseUnits.
Context `{Engine}.

(** The rounding step of [parseUnits], taken when the fraction has more
    digits than [decimals]. *)
Definition round_fraction (integer fraction : string) (decimals : nat)
  : Completion (string * string) :=
  let left := Str.slice 0 (decimals - 1) fraction in
  let unit := Str.slice (decimals - 1) decimals fraction in
  let right := Str.slice_from decimals fraction in
  let rounded := Math_round_Number (unit +:+ "." +:+ right) in
  fraction ←
    (if (9 <? rounded)%Z
     then l ← BigInt left;
          Normal (Str.padStart (String.length left + 1) "0" (pretty (l + 1)%Z +:+ "0"))
     else Normal (left +:+ pretty rounded));
  '(integer, fraction) ←
    (if (decimals <? String.length fraction)%nat
     then i ← BigInt integer;
          Normal (pretty (i + 1)%Z, Str.slice_from 1 fraction)
     else Normal (integer, fraction));
  Normal (integer, Str.slice 0 decimals fraction).

(** The fraction brought to [decimals] digits, carrying into the integer
    part when rounding overflows. *)
Definition scale (integer fraction : string) (decimals : nat)
  : Completion (string * string) :=
  if (decimals =? 0)%nat
  then
    if (Math_round_Number ("." +:+ fraction) =? 1)%Z
    then i ← BigInt integer; Normal (pretty (i + 1)%Z, "")
    else Normal (integer, "")
  else if (decimals <? String.length fraction)%nat
  then round_fraction integer fraction decimals
  else Normal (integer, Str.padEnd decimals "0" fraction).

(** Modelled from the spec: [parseUnits] is imported from the viem
    package, whose source is not part of the repository.  Spec 4.2,
    step 3: the amount text is parsed "as a decimal amount scaled to 6
    fractional digits ... into an integer base-unit amount.  Fails if the
    text is not a valid decimal numeral."  The shape of the numerals and
    the treatment of longer fractions follow viem's
    [utils/unit/parseUnits.ts]; a text without a digit is no numeral and
    fails.  The argument is typed [string] there, and a value of another
    type that passes the test fails at [value.split]. *)
Definition parseUnits (value : json) (decimals : nat) : Completion Z :=
  text ← to_string value;
  if negb (decimal_number text)
  then Throw (LibraryError "InvalidDecimalNumberError")
  else
    match value with
    | JStr value =>
        let parts := Str.split "." value in
        let integer := match parts with i :: _ => i | [] => "" end in
        let fraction := match parts with _ :: f :: _ => f | _ => "0" end in
        let negative := Str.startsWith "-" integer in
        let integer := if negative then Str.slice_from 1 integer else integer in
        let fraction := Str.strip_trailing_zeros fraction in
        '(integer, fraction) ← scale integer fraction decimals;
        BigInt ((if negative then "-" else "") +:+ integer +:+ fraction)
    | _ => Throw TypeError
    end.

End parseUnits.

End Viem.

(** ** The approval route: [approval/route.ts] *)

Module Approval.
Import Js Viem.

(** A chain description of [viem/chains]; the route reads its [id]. *)
Record Chain := { id : Z }.

(** The interfaces of lines 6 to 24.  They describe the body a frame
    client sends; the handler itself reads whatever JSON arrives. *)
Record UntrustedData := {
  buttonIndex : Z;
  inputText : option string;
  walletAddress : string;
  url : string;
  timestamp : Z;
  state : string;
  address : string;
  network : option string
}.

Record TrustedData := { messageBytes : string }.

Record FrameRequest := {
  untrustedData : UntrustedData;
  trustedData : TrustedData
}.

(** An optional member: left out when there is no value. *)
Definition optional (key : string) (v : option string) : list (string * json) :=
  match v with
  | Some s => [(key, JStr s)]
  | None => []
  end.

(** The JSON a [FrameRequest] travels as. *)
Definition FrameRequest_json (r : FrameRequest) : json :=
  let u := untrustedData r in
  JObj
    [ ("untrustedData",
       JObj ([("buttonIndex", JNum (buttonIndex u))]
             ++ optional "inputText" (inputText u)
             ++ [ ("walletAddress", JStr (walletAddress u));
                  ("url", JStr (url u));
                  ("timestamp", JNum (timestamp u));
                  ("state", JStr (state u));
                  ("address", JStr (address u)) ]
             ++ optional "network" (network u)));
      ("trustedData", JObj [("messageBytes", JStr (messageBytes (trustedData r)))]) ].

(** An argument handed to [encodeFunctionData]. *)
Inductive AbiArg : Type :=
  | AString (s : string)
  | AUndefined
  | ABigInt (n : Z).

(** What the route imports and the repository does not define in the
    files at hand: the constants of [@/lib/constants], the two chains of
    [viem/chains], and viem's [encodeFunctionData], which throws on
    arguments the ABI does not admit. *)
Class Imports := {
  Abi : Type;
  USDCABI : Abi;
  contractAddresses_optimismSepolia : string;
  contractAddresses_arbitrumSepolia : string;
  USDC_optimismSepolia : string;
  USDC_arbitrumSepolia : string;
  optimismSepolia : Chain;
  arbitrumSepolia : Chain;
  encodeFunctionData : Abi -> string -> list AbiArg -> Completion string
}.

Section route.
Context `{Engine} `{Imports}.

Record ChainConfig := {
  chain : Chain;
  contractAddress : string;
  usdcAddress : string
}.

Definition chainConfigs : gmap string ChainConfig :=
  {[ "optimism-sepolia" :=
       {| chain := optimismSepolia;
          contractAddress := contractAddresses_optimismSepolia;
          usdcAddress := USDC_optimismSepolia |};
     "arbitrum-sepolia" :=
       {| chain := arbitrumSepolia;
          contractAddress := contractAddresses_arbitrumSepolia;
          usdcAddress := USDC_arbitrumSepolia |} ]}.

(** [chainConfigs] is an object literal, so a read by key also finds what
    [Object.prototype] defines. *)
Definition Object_prototype : list string :=
  [ "constructor"; "hasOwnProperty"; "isPrototypeOf"; "propertyIsEnumerable";
    "toLocaleString"; "toString"; "valueOf"; "__proto__";
    "__defineGetter__"; "__defineSetter__"; "__lookupGetter__";
    "__lookupSetter__" ].

(** The value of [chainConfigs[key]]: one of the two configurations, a
    member inherited from [Object.prototype] (a function or an object,
    truthy, without [chain], [contractAddress] or [usdcAddress]), or
    [undefined]. *)
Inductive Element : Type :=
  | Own (config : ChainConfig)
  | Inherited (name : string).

Definition element (key : string) : option Element :=
  match chainConfigs !! key with
  | Some config => Some (Own config)
  | None =>
      if bool_decide (key ∈ Object_prototype) then Some (Inherited key)
      else None
  end.

Record TxParams := { abi : Abi; to : string; data : string }.
Record TxDescriptor := { chainId : string; method : string; params : TxParams }.

Inductive Body : Type :=
  | Descriptor (response : TxDescriptor)
  | Failure (error : string).

Record NextResponse := { status : Z; body : Body }.

(** [NextResponse.json(body)] and [NextResponse.json(body, { status })]. *)
Definition NextResponse_json (body : Body) (status : option Z) : NextResponse :=
  {| status := default 200%Z status; body := body |}.

(** The request, as far as the route reads it: the JSON its body parses
    to, if it parses. *)
Record NextRequest := { parsed : option json }.

(** The request that carries a [FrameRequest]. *)
Definition frame_request (r : FrameRequest) : NextRequest :=
  {| parsed := Some (FrameRequest_json r) |}.

(** [await req.json()]. *)
Definition req_json (req : NextRequest) : Completion json :=
  match parsed req with
  | Some j => Normal j
  | None => Throw SyntaxError
  end.

(** The body of [try]: lines 49 to 88.  The two [console.log] calls write
    to the server log only. *)
Definition prepare (req : NextRequest) : Completion NextResponse :=
  json ← req_json req;
  untrustedData ← get json "untrustedData";
  trustedData ← get json "trustedData";
  _ ← (if negb (truthy untrustedData) || negb (truthy trustedData)
       then Throw (Error "Missing untrustedData or trustedData")
       else Normal ());
  network ← get_of untrustedData "network";
  let chainKey := or_else network (JStr "optimism-sepolia") in
  key ← to_string chainKey;
  chainConfig ←
    match element key with
    | Some e => Normal e
    | None => Throw (Error ("Unsupported network: " +:+ key))
    end;
  inputText ← get_of untrustedData "inputText";
  let inputAmount := or_else inputText (JStr "1") in
  amt ← parseUnits inputAmount 6;
  calldata ←
    encodeFunctionData USDCABI "approve"
      [ match chainConfig with
        | Own c => AString (contractAddress c)
        | Inherited _ => AUndefined
        end;
        ABigInt amt ];
  match chainConfig with
  | Own c =>
      let response :=
        {| chainId := "eip155:" +:+ pretty (id (chain c));
           method := "eth_sendTransaction";
           params := {| abi := USDCABI; to := usdcAddress c; data := calldata |} |} in
      Normal (NextResponse_json (Descriptor response) None)
  | Inherited _ => Throw TypeError
  end.

(** [POST], lines 45 to 94.  The [catch] logs the error and answers with
    one fixed body. *)
Definition POST (req : NextRequest) : NextResponse :=
  try_catch (prepare req)
    (fun error =>
       NextResponse_json (Failure "Failed to process frame request") (Some 400%Z)).

(** *** Vocabulary of the specification *)

(** [v.key], with [undefined] where the read would throw. *)
Definition field (v : value) (key : string) : value :=
  match get_of v key with
  | Normal x => x
  | Throw _ => undefined
  end.

Definition untrustedData_of (req : NextRequest) : value :=
  field (parsed req) "untrustedData".
Definition trustedData_of (req : NextRequest) : value :=
  field (parsed req) "trustedData".

(** A part of the body the guard of line 54 counts as missing: it is
    [undefined], or holds no [UntrustedData] or [TrustedData] object but
    one of [null], [false], [0] and the empty string. *)
Definition absent (v : value) : Prop := truthy v = false.

(** The network key and the amount text after the defaults of lines 60
    and 67. *)
Definition resolved_network (req : NextRequest) : json :=
  or_else (field (untrustedData_of req) "network") (JStr "optimism-sepolia").
Definition resolved_amount (req : NextRequest) : json :=
  or_else (field (untrustedData_of req) "inputText") (JStr "1").

(** The chain configuration registered under a key, if the key converts
    to a property name and [chainConfigs] has an entry for it. *)
Definition configuration (chainKey : json) : option ChainConfig :=
  match to_string chainKey with
  | Normal key => chainConfigs !! key
  | Throw _ => None
  end.

(** The two entries of [chainConfigs]. *)
Definition optimism_config : ChainConfig :=
  {| chain := optimismSepolia;
     contractAddress := contractAddresses_optimismSepolia;
     usdcAddress := USDC_optimismSepolia |}.
Definition arbitrum_config : ChainConfig :=
  {| chain := arbitrumSepolia;
     contractAddress := contractAddresses_arbitrumSepolia;
     usdcAddress := USDC_arbitrumSepolia |}.

(** A decimal numeral as [parseUnits] admits it. *)
Definition valid_decimal_numeral (v : json) : bool :=
  match v with
  | JStr s => decimal_number s
  | _ => false
  end.

(** The encoding step is reached and throws. *)
Definition encoding_throws (req : NextRequest) : Prop :=
  exists config amt e,
    configuration (resolved_network req) = Some config /\
    parseUnits (resolved_amount req) 6 = Normal amt /\
    encodeFunctionData USDCABI "approve"
      [AString (contractAddress config); ABigInt amt] = Throw e.

(** The body carries both [untrustedData] and [trustedData]: the guard
    of line 54 lets it through. *)
Definition carries_frame_data (req : NextRequest) : Prop :=
  truthy (untrustedData_of req) = true /\ truthy (trustedData_of req) = true.

(** A body with nothing but the two parts, both empty objects. *)
Definition bare_request : NextRequest :=
  {| parsed := Some (JObj [("untrustedData", JObj []); ("trustedData", JObj [])]) |}.

Definition is_object (j : json) : bool :=
  match j with JObj _ => true | _ => false end.
Definition is_string (j : json) : bool :=
  match j with JStr _ => true | _ => false end.

(** The 400 response. *)
Definition bad_request : NextResponse :=
  {| status := 400; body := Failure "Failed to process frame request" |}.

(** The 200 response for a configuration and the call data. *)
Definition ok_response (config : ChainConfig) (calldata : string) : NextResponse :=
  {| status := 200;
     body := Descriptor
       {| chainId := "eip155:" +:+ pretty (id (chain config));
          method := "eth_sendTransaction";
          params := {| abi := USDCABI; to := usdcAddress config; data := calldata |} |} |}.

(** The rest of [prepare] once the guard of line 54 has passed, as a
    function of the two fields it goes on to read. *)
Definition after_guard (network inputText : value) : Completion NextResponse :=
  key ← to_string (or_else network (JStr "optimism-sepolia"));
  chainConfig ←
    match element key with
    | Some e => Normal e
    | None => Throw (Error ("Unsupported network: " +:+ key))
    end;
  amt ← parseUnits (or_else inputText (JStr "1")) 6;
  calldata ←
    encodeFunctionData USDCABI "approve"
      [ match chainConfig with
        | Own c => AString (contractAddress c)
        | Inherited _ => AUndefined
        end;
        ABigInt amt ];
  match chainConfig with
  | Own c => Normal (ok_response c calldata)
  | Inherited _ => Throw TypeError
  end.

End route.

End Approval.

(** ** The registration page *)

Module Registration.
Import Js.

Record FormData := {
  fullName : string;
  email : string;
  skills : list string;
  experience : string;
  hourlyRate : Z;
  portfolio : string;
  bio : string
}.

Inductive ErrorKind : Type :=
  | REGISTRATION_FAILED
  | ALREADY_REGISTERED
  | WALLET_NOT_CONNECTED.

(** [ErrorType]; [type] is [None] for [null]. *)
Record ErrorType := { type : option ErrorKind; message : string }.

Module Toast.
Inductive Severity : Type := success | error | warning.
Record t := { show : bool; message : string; type : Severity }.
End Toast.

(** The state hooks of [FreelancerRegistration]. *)
Record State := {
  formData : FormData;
  error : ErrorType;
  loading : bool;
  toast : Toast.t
}.

(** The state on mount, lines 30 to 49. *)
Definition initial : State :=
  {| formData :=
       {| fullName := ""; email := ""; skills := []; experience := "";
          hourlyRate := 0; portfolio := ""; bio := "" |};
     error := {| type := None; message := "" |};
     loading := false;
     toast := {| Toast.show := false; Toast.message := ""; Toast.type := Toast.success |} |}.

(** The body of the registration request:
    [{ ...formData, walletAddress: address }]. *)
Record RegistrationBody := { form : FormData; walletAddress : string }.

Record RequestInit := {
  method : string;
  headers : list (string * string);
  body : RegistrationBody
}.

(** What a handler does to the world outside the component state. *)
Inductive Action : Type :=
  | preventDefault
  | fetch (url : string) (init : RequestInit)
  | setTimeout_router_push (path : string) (delay : Z).

(** How the registration endpoint answers a [fetch]: the request fails
    in transit, or a response arrives with its [ok] flag and the JSON its
    body parses to (if it parses). *)
Inductive Reply : Type :=
  | Unreachable
  | Response (ok : bool) (json_body : option json).

(** What the page gets from its surroundings: the address of the wallet
    connector ([None] for [undefined]) and the registration endpoint. *)
Record Page := {
  address : option string;
  endpoint : string -> RequestInit -> Reply
}.

(** A handler run: it reads and writes the component state, appends to
    the trace of actions, and completes or throws. *)
Record World := { ui : State; trace : list Action }.
Definition Eff (A : Type) : Type := World -> Completion A * World.

#[global] Instance Eff_ret : MRet Eff := fun A a w => (Normal a, w).
#[global] Instance Eff_bind : MBind Eff := fun A B k c w =>
  match c w with
  | (Normal a, w') => k a w'
  | (Throw e, w') => (Throw e, w')
  end.

Definition throw {A} (e : Thrown) : Eff A := fun w => (Throw e, w).
Definition lift {A} (c : Completion A) : Eff A := fun w => (c, w).
Definition perform (a : Action) : Eff () :=
  fun w => (Normal (), {| ui := ui w; trace := trace w ++ [a] |}).
Definition read : Eff State := fun w => (Normal (ui w), w).
Definition write (f : State -> State) : Eff () :=
  fun w => (Normal (), {| ui := f (ui w); trace := trace w |}).

Definition setFormData (d : FormData) : Eff () :=
  write (fun s => {| formData := d; error := error s; loading := loading s; toast := toast s |}).
Definition setError (e : ErrorType) : Eff () :=
  write (fun s => {| formData := formData s; error := e; loading := loading s; toast := toast s |}).
Definition setLoading (b : bool) : Eff () :=
  write (fun s => {| formData := formData s; error := error s; loading := b; toast := toast s |}).
Definition setToast (t : Toast.t) : Eff () :=
  write (fun s => {| formData := formData s; error := error s; loading := loading s; toast := t |}).

(** [try { body } catch (err) { handler err } finally { finalizer }]. *)
Definition try_catch_finally {A} (body : Eff A) (handler : Thrown -> Eff A)
    (finalizer : Eff ()) : Eff A :=
  fun w =>
    let '(r, w') :=
      match body w with
      | (Normal a, w') => (Normal a, w')
      | (Throw e, w') => handler e w'
      end in
    match finalizer w' with
    | (Normal _, w'') => (r, w'')
    | (Throw e, w'') => (Throw e, w'')
    end.

(** [await fetch(url, init)] followed by [await response.json()]: the
    first rejects with a [TypeError] when the request fails, the second
    with a [SyntaxError] when the body is not JSON. *)
Definition await_fetch (page : Page) (url : string) (init : RequestInit) : Eff Reply :=
  _ ← perform (fetch url init);
  match endpoint page url init with
  | Unreachable => throw TypeError
  | response => mret response
  end.
Definition response_ok (response : Reply) : bool :=
  match response with Response ok _ => ok | Unreachable => false end.
Definition response_json (response : Reply) : Eff json :=
  match response with
  | Response _ (Some data) => mret data
  | _ => throw SyntaxError
  end.

(** [handleSkillsChange], lines 51 to 54, on the text of the input. *)
Definition handleSkillsChange (value : string) : Eff () :=
  s ← read;
  let formData := formData s in
  let skills := map (fun skill => Str.trim skill) (Str.split "," value) in
  setFormData
    {| fullName := fullName formData; email := email formData; skills := skills;
       experience := experience formData; hourlyRate := hourlyRate formData;
       portfolio := portfolio formData; bio := bio formData |}.

(** [!address]. *)
Definition no_address (address : option string) : bool :=
  negb (truthy (JStr <$> address)).

(** [handleSubmit], lines 56 to 130.  Everything thrown inside [try] is
    an instance of [Error], so the test [err instanceof Error] of the
    [catch] block always passes; its [switch] reads the message. *)
Definition handleSubmit (page : Page) : Eff () :=
  s ← read;
  let formData := formData s in
  _ ← perform preventDefault;
  _ ← setLoading true;
  _ ← setError {| type := None; message := "" |};
  if no_address (address page)
  then
    _ ← setError {| type := Some WALLET_NOT_CONNECTED;
                    message := "Please connect your wallet first" |};
    setLoading false
  else
    try_catch_finally
      (response ← await_fetch page "/api/freelancer/register"
           {| method := "POST";
              headers := [("Content-Type", "application/json")];
              body := {| form := formData;
                         walletAddress := default "" (address page) |} |};
       data ← response_json response;
       if negb (response_ok response)
       then
         message ← lift (get data "message");
         if strict_equal message "This wallet is already registered"
         then
           _ ← setToast {| Toast.show := true;
                           Toast.message := "This wallet is already registered";
                           Toast.type := Toast.warning |};
           throw (Error "ALREADY_REGISTERED")
         else throw (Error "REGISTRATION_FAILED")
       else
         _ ← setToast {| Toast.show := true;
                         Toast.message := "Registration successful! Redirecting to dashboard...";
                         Toast.type := Toast.success |};
         perform (setTimeout_router_push "/home" 3000))
      (fun err =>
         match err with
         | Error "ALREADY_REGISTERED" =>
             setError {| type := Some ALREADY_REGISTERED;
                         message := "This wallet is already registered. Cannot register more than once." |}
         | _ =>
             _ ← setToast {| Toast.show := true;
                             Toast.message := "Registration failed. Please try again later.";
                             Toast.type := Toast.error |};
             setError {| type := Some REGISTRATION_FAILED;
                         message := "Registration failed. Please try again later." |}
         end)
      (setLoading false).

(** The action shown under the message of the banner. *)
Inductive ErrorAction : Type :=
  | Link (href label : string)
  | Button (label : string) (onClick : Eff ()).

Definition errorStyles (kind : ErrorKind) : string :=
  match kind with
  | ALREADY_REGISTERED => "bg-yellow-50 text-yellow-800 border-yellow-200"
  | REGISTRATION_FAILED => "bg-red-50 text-red-800 border-red-200"
  | WALLET_NOT_CONNECTED => "bg-orange-50 text-orange-800 border-orange-200"
  end.

Definition errorActions (kind : ErrorKind) : option ErrorAction :=
  match kind with
  | ALREADY_REGISTERED => Some (Link "/login" "Go to Login")
  | REGISTRATION_FAILED =>
      Some (Button "Try Again" (setError {| type := None; message := "" |}))
  | WALLET_NOT_CONNECTED => None
  end.

Record Banner := { style : string; text : string; action : option ErrorAction }.

(** [ErrorMessage], lines 132 to 182: nothing without an error type. *)
Definition ErrorMessage (error : ErrorType) : option Banner :=
  match type error with
  | None => None
  | Some kind =>
      Some {| style := errorStyles kind; text := message error;
              action := errorActions kind |}
  end.

(** *** The rest of the component *)

(** The inputs whose [onChange] stores the typed text as it is: lines
    220, 241, 268, 302 and 315.  (The hourly rate goes through [Number]
    and is left out.) *)
Inductive TextField : Type :=
  | fullName_field
  | email_field
  | experience_field
  | portfolio_field
  | bio_field.

(** [(e) => setFormData({ ...formData, field: e.target.value })]. *)
Definition onChange (field : TextField) (value : string) : Eff () :=
  s ← read;
  let formData := formData s in
  setFormData
    match field with
    | fullName_field =>
        {| fullName := value; email := email formData; skills := skills formData;
           experience := experience formData; hourlyRate := hourlyRate formData;
           portfolio := portfolio formData; bio := bio formData |}
    | email_field =>
        {| fullName := fullName formData; email := value; skills := skills formData;
           experience := experience formData; hourlyRate := hourlyRate formData;
           portfolio := portfolio formData; bio := bio formData |}
    | experience_field =>
        {| fullName := fullName formData; email := email formData;
           skills := skills formData;
           experience := value; hourlyRate := hourlyRate formData;
           portfolio := portfolio formData; bio := bio formData |}
    | portfolio_field =>
        {| fullName := fullName formData; email := email formData;
           skills := skills formData;
           experience := experience formData; hourlyRate := hourlyRate formData;
           portfolio := value; bio := bio formData |}
    | bio_field =>
        {| fullName := fullName formData; email := email formData;
           skills := skills formData;
           experience := experience formData; hourlyRate := hourlyRate formData;
           portfolio := portfolio formData; bio := value |}
    end.

(** What an input shows or stores for a text field. *)
Definition field_value (field : TextField) (d : FormData) : string :=
  match field with
  | fullName_field => fullName d
  | email_field => email d
  | experience_field => experience d
  | portfolio_field => portfolio d
  | bio_field => bio d
  end.

(** The [onClose] of the toast, line 332:
    [setToast(prev => ({ ...prev, show: false }))]. *)
Definition onClose : Eff () :=
  write (fun s =>
    {| formData := formData s; error := error s; loading := loading s;
       toast := {| Toast.show := false;
                   Toast.message := Toast.message (toast s);
                   Toast.type := Toast.type (toast s) |} |}).

(** What the component returns, lines 184 to 337, without the markup
    and the styling: the banner, then the prompt to connect a wallet or
    the form (its handlers, the values its controlled inputs show, and
    its submit button), then the toast. *)
Record FormView := {
  onSubmit : Eff ();
  onSkillsChange : string -> Eff ();
  onTextChange : TextField -> string -> Eff ();
  shown : TextField -> string;
  submit_disabled : bool;
  submit_label : string
}.

Inductive Content : Type :=
  | ConnectWallet
  | RegistrationForm (form : FormView).

Record View := {
  banner : option Banner;
  content : Content;
  toast_props : Toast.t;
  toast_onClose : Eff ()
}.

Definition FreelancerRegistration (page : Page) (s : State) : View :=
  {| banner := ErrorMessage (error s);
     content :=
       if no_address (address page) then ConnectWallet
       else RegistrationForm
              {| onSubmit := handleSubmit page;
                 onSkillsChange := handleSkillsChange;
                 onTextChange := onChange;
                 shown := fun field => field_value field (formData s);
                 submit_disabled := loading s;
                 submit_label := if loading s then "Registering..." else "Register" |};
     toast_props := toast s;
     toast_onClose := onClose |}.

(** *** Vocabulary of the specification *)

(** A handler run from a component state, with an empty trace. *)
Definition run (handler : Eff ()) (s : State) : Completion () * World :=
  handler {| ui := s; trace := [] |}.
Definition state_after (handler : Eff ()) (s : State) : State :=
  ui (run handler s).2.
Definition actions_of (handler : Eff ()) (s : State) : list Action :=
  trace (run handler s).2.

Definition is_fetch (a : Action) : bool :=
  match a with fetch _ _ => true | _ => false end.
Definition is_timer (a : Action) : bool :=
  match a with setTimeout_router_push _ _ => true | _ => false end.

(** What the endpoint answers to the request [handleSubmit] sends from
    state [s]. *)
Definition reply_to (page : Page) (s : State) : Reply :=
  endpoint page "/api/freelancer/register"
    {| method := "POST";
       headers := [("Content-Type", "application/json")];
       body := {| form := formData s;
                  walletAddress := default "" (address page) |} |}.

(** The request [handleSubmit] sends from state [s]. *)
Definition request (page : Page) (s : State) : Action :=
  fetch "/api/freelancer/register"
    {| method := "POST";
       headers := [("Content-Type", "application/json")];
       body := {| form := formData s;
                  walletAddress := default "" (address page) |} |}.

(** State [s] with the error and the toast a submit attempt leaves, and
    [loading] cleared. *)
Definition with_feedback (s : State) (e : ErrorType) (t : Toast.t) : State :=
  {| formData := formData s; error := e; loading := false; toast := t |}.

(** The ways a submit attempt can go. *)
Inductive Outcome : Type :=
  | no_wallet
  | registered
  | already_registered
  | failed.

(** A non-ok response whose body is JSON with the given [message]. *)
Definition says (reply : Reply) (text : string) : bool :=
  match reply with
  | Response false (Some (JObj members)) =>
      strict_equal (own_member "message" members) text
  | _ => false
  end.

(** The reply is an ok response with a JSON body. *)
Definition accepts (reply : Reply) : bool :=
  match reply with
  | Response true (Some _) => true
  | _ => false
  end.

(** The registration fails: the request throws (the endpoint is
    unreachable, or the body of the response is not JSON), or the
    response is not ok and its message is another one than "This wallet
    is already registered". *)
Definition fails (reply : Reply) : bool :=
  match reply with
  | Unreachable => true
  | Response _ None => true
  | Response false (Some _) => negb (says reply "This wallet is already registered")
  | Response true (Some _) => false
  end.

Definition outcome (page : Page) (s : State) : Outcome :=
  if no_address (address page) then no_wallet
  else if accepts (reply_to page s) then registered
  else if says (reply_to page s) "This wallet is already registered"
  then already_registered
  else failed.

(** The three indicators of the invariant. *)
Definition banner_active (s : State) : bool :=
  match type (error s) with Some _ => true | None => false end.
Definition toast_visible (severity : Toast.Severity) (s : State) : bool :=
  Toast.show (toast s) &&
  match Toast.type (toast s), severity with
  | Toast.success, Toast.success => true
  | Toast.error, Toast.error => true
  | Toast.warning, Toast.warning => true
  | _, _ => false
  end.
Definition active_count (s : State) : nat :=
  (if banner_active s then 1 else 0)
  + (if toast_visible Toast.success s then 1 else 0)
  + (if toast_visible Toast.warning s then 1 else 0).

(** The invariant as the specification words it. *)
Definition exactly_one_active (s : State) : Prop := active_count s = 1.

(** The success or warning toast still on screen when a submit starts. *)
Definition stale_toasts (s : State) : nat :=
  (if toast_visible Toast.success s then 1 else 0)
  + (if toast_visible Toast.warning s then 1 else 0).

End Registration.

(** ** Concrete surroundings for the examples *)

Module Fixtures.
Import Js Viem Approval.

(** Rounds one digit, a dot and more digits half up on the first digit
    after the dot. *)
Definition round_half_up (s : string) : Z :=
  match s with
  | String d (String _ (String t _)) =>
      (Z.of_nat (nat_of_ascii d) - 48 + (if (53 <=? nat_of_ascii t)%nat then 1 else 0))%Z
  | String d _ => (Z.of_nat (nat_of_ascii d) - 48)%Z
  | "" => 0%Z
  end.

Lemma round_half_up_range (d : ascii) (ds : string) :
  Str.is_digit d = true -> Str.all_digits ds = true ->
  (0 <= round_half_up (String d ("." +:+ ds)) <= 10)%Z.
Proof.
  unfold Str.is_digit. intros Hd _.
  apply andb_true_iff in Hd as [Hlo Hhi].
  apply Nat.leb_le in Hlo. apply Nat.leb_le in Hhi.
  unfold round_half_up. change ("." +:+ ds) with (String "." ds).
  destruct ds as [|t ds].
  - lia.
  - destruct (53 <=? nat_of_ascii t)%nat; lia.
Qed.

#[export] Instance engine : Engine :=
  {| Math_round_Number := round_half_up;
     Math_round_Number_range := round_half_up_range |}.

(** A stand-in for the encoder: it names the call, and refuses what the
    types [address] and [uint256] refuse. *)
Definition encode_call (abi : list string) (functionName : string)
    (args : list AbiArg) : Completion string :=
  match args with
  | [AString spender; ABigInt amount] =>
      if (amount <? 0)%Z then Throw (LibraryError "IntegerOutOfRangeError")
      else Normal (functionName +:+ "(" +:+ spender +:+ "," +:+ pretty amount +:+ ")")
  | _ => Throw (LibraryError "InvalidAddressError")
  end.

#[export] Instance imports : Imports :=
  {| Abi := list string;
     USDCABI := ["function approve(address spender, uint256 amount) returns (bool)"];
     contractAddresses_optimismSepolia := "0x00000000000000000000000000000000000000a1";
     contractAddresses_arbitrumSepolia := "0x00000000000000000000000000000000000000a2";
     USDC_optimismSepolia := "0x5fd84259d66Cd46123540766Be93DFE6D43130D7";
     USDC_arbitrumSepolia := "0x75faf114eafb1BDbe2F0316DF893fd58CE46AA4d";
     optimismSepolia := {| id := 11155420 |};
     arbitrumSepolia := {| id := 421614 |};
     encodeFunctionData := encode_call |}.

(** A frame request as a client sends it, with the given amount text
    and network. *)
Definition frame (inputText network : option string) : NextRequest :=
  frame_request
    {| untrustedData :=
         {| buttonIndex := 1;
            inputText := inputText;
            walletAddress := "0x00000000000000000000000000000000000000b1";
            url := "https://example.org/frames/deposit";
            timestamp := 1700000000000;
            state := "";
            address := "0x00000000000000000000000000000000000000b1";
            network := network |};
       trustedData := {| messageBytes := "0a0b0c" |} |}.

Definition arbitrum_five : NextRequest :=
  frame (Some "5") (Some "arbitrum-sepolia").

(** The same two fields in another frame: another button, wallet, time
    and signature. *)
Definition arbitrum_five_other : NextRequest :=
  frame_request
    {| untrustedData :=
         {| buttonIndex := 2;
            inputText := Some "5";
            walletAddress := "0x00000000000000000000000000000000000000c7";
            url := "https://example.org/frames/deposit?retry=1";
            timestamp := 1800000000000;
            state := "%7B%7D";
            address := "0x00000000000000000000000000000000000000c7";
            network := Some "arbitrum-sepolia" |};
       trustedData := {| messageBytes := "ffee" |} |}.

Definition unsupported_chain : NextRequest :=
  frame None (Some "unsupported-chain").

(** A body given member by member, for the bodies no [FrameRequest]
    describes. *)
Definition raw_frame (untrusted : json) (trusted : json) : NextRequest :=
  {| parsed := Some (JObj [("untrustedData", untrusted); ("trustedData", trusted)]) |}.

(** A page with a connected wallet whose endpoint always answers
    [reply], and a page without a wallet. *)
Definition connected_page (reply : Registration.Reply) : Registration.Page :=
  {| Registration.address := Some "0x00000000000000000000000000000000000000b1";
     Registration.endpoint := fun _ _ => reply |}.
Definition walletless_page : Registration.Page :=
  {| Registration.address := None;
     Registration.endpoint := fun _ _ => Registration.Response true (Some (JObj [])) |}.

Definition taken_reply : Registration.Reply :=
  Registration.Response false
    (Some (JObj [("message", JStr "This wallet is already registered")])).
Definition broken_reply : Registration.Reply :=
  Registration.Response false (Some (JObj [("message", JStr "Internal Server Error")])).

Definition welcome_reply : Registration.Reply :=
  Registration.Response true (Some (JObj [("id", JNum 17)])).

(** A state left by an earlier, failed attempt, with the form filled
    in. *)
Definition retried : Registration.State :=
  {| Registration.formData :=
       {| Registration.fullName := "Ada Lovelace";
          Registration.email := "ada@example.org";
          Registration.skills := ["React"; "TypeScript"];
          Registration.experience := "5+";
          Registration.hourlyRate := 90;
          Registration.portfolio := "";
          Registration.bio := "Writes programs." |};
     Registration.error :=
       {| Registration.type := Some Registration.REGISTRATION_FAILED;
          Registration.message := "Registration failed. Please try again later." |};
     Registration.loading := false;
     Registration.toast :=
       {| Registration.Toast.show := true;
          Registration.Toast.message := "Registration failed. Please try again later.";
          Registration.Toast.type := Registration.Toast.error |} |}.

End Fixtures.

(** * Properties *)

(** ** Strings *)

Module StrFacts.
Import Js.

(** Appending to a string that is written out. *)
Ltac app_step :=
  repeat match goal with
    | |- context [String ?c ?s +:+ ?t] =>
        change (String c s +:+ t) with (String c (s +:+ t))
    | |- context ["" +:+ ?t] => change ("" +:+ t) with t
    end.

Lemma all_digits_app (a b : string) :
  Str.all_digits (a +:+ b) = Str.all_digits a && Str.all_digits b.
Proof.
  induction a as [|c a IH]; app_step; [done|].
  cbn [Str.all_digits]. rewrite IH. by rewrite andb_assoc.
Qed.

Lemma length_app (a b : string) :
  String.length (a +:+ b) = (String.length a + String.length b)%nat.
Proof.
  induction a as [|c a IH]; app_step; [done|].
  cbn [String.length]. by rewrite IH.
Qed.

Lemma all_digits_substring (n m : nat) (s : string) :
  Str.all_digits s = true -> Str.all_digits (String.substring n m s) = true.
Proof.
  revert n m. induction s as [|c s IH]; intros n m Hs.
  - by destruct n, m.
  - cbn [Str.all_digits] in Hs. apply andb_true_iff in Hs as [Hc Hs].
    destruct n as [|n].
    + destruct m as [|m]; [done|].
      cbn [String.substring Str.all_digits]. rewrite Hc. by apply IH.
    + cbn [String.substring]. by apply IH.
Qed.

Lemma length_substring (n m : nat) (s : string) :
  String.length (String.substring n m s)
  = Nat.min m (String.length s - n).
Proof.
  revert n m. induction s as [|c s IH]; intros n m.
  - destruct n, m; cbn; lia.
  - destruct n as [|n].
    + destruct m as [|m]; [done|].
      cbn [String.substring String.length]. rewrite IH. lia.
    + cbn [String.substring String.length]. rewrite IH. lia.
Qed.

Lemma substring_all (s : string) : String.substring 0 (String.length s) s = s.
Proof. induction s as [|c s IH]; [done|]. cbn. by rewrite IH. Qed.

Lemma slice_from_1 (c : ascii) (s : string) : Str.slice_from 1 (String c s) = s.
Proof.
  unfold Str.slice_from. cbn [String.length].
  replace (S (String.length s) - 1)%nat with (String.length s) by lia.
  cbn [String.substring]. apply substring_all.
Qed.

(** A digit at a position inside a string of digits. *)
Lemma substring_digit (n : nat) (s : string) :
  Str.all_digits s = true -> (n < String.length s)%nat ->
  exists d, String.substring n 1 s = String d "" /\ Str.is_digit d = true.
Proof.
  revert n. induction s as [|c s IH]; intros n Hs Hn; [cbn in Hn; lia|].
  cbn [Str.all_digits] in Hs. apply andb_true_iff in Hs as [Hc Hs].
  destruct n as [|n].
  - exists c. split; [|done]. cbn. by destruct s.
  - cbn [String.substring]. apply IH; [done|]. cbn in Hn. lia.
Qed.

Lemma all_digits_repeat_zero (n : nat) : Str.all_digits (Str.repeat_char "0" n) = true.
Proof. induction n as [|n IH]; [done|]. cbn [Str.repeat_char Str.all_digits]. by rewrite IH. Qed.

Lemma length_repeat_char (c : ascii) (n : nat) : String.length (Str.repeat_char c n) = n.
Proof. induction n as [|n IH]; [done|]. cbn. by rewrite IH. Qed.

Lemma all_digits_strip (s : string) :
  Str.all_digits s = true -> Str.all_digits (Str.strip_trailing_zeros s) = true.
Proof.
  induction s as [|c s IH]; [done|].
  cbn [Str.all_digits Str.strip_trailing_zeros]. intros Hs.
  apply andb_true_iff in Hs as [Hc Hs]. specialize (IH Hs).
  destruct (Str.strip_trailing_zeros s) as [|k kept].
  - destruct (Ascii.eqb c "0"); [done|]. cbn. by rewrite Hc.
  - cbn [Str.all_digits]. by rewrite Hc.
Qed.

(** stdpp prints a natural number in decimal digits. *)
Lemma all_digits_pretty_N_go (x : N) (s : string) :
  Str.all_digits s = true -> Str.all_digits (pretty_N_go x s) = true.
Proof.
  revert s. induction (N.lt_wf_0 x) as [x _ IH]; intros s Hs.
  destruct (decide (x = 0)%N) as [->|Hx]; [by rewrite pretty_N_go_0|].
  rewrite pretty_N_go_step by lia. apply IH.
  - apply N.div_lt; lia.
  - cbn [Str.all_digits]. rewrite Hs, andb_true_r.
    unfold pretty_N_char. by repeat case_match.
Qed.

Lemma all_digits_pretty (z : Z) : (0 <= z)%Z -> Str.all_digits (pretty z) = true.
Proof.
  intros Hz. destruct z as [|p|p]; [done| |lia].
  unfold pretty, pretty_Z, pretty, pretty_positive, pretty, pretty_N.
  case_decide; [done|]. by apply all_digits_pretty_N_go.
Qed.

(** *** Splitting *)

Lemma split_nonempty (sep : ascii) (s : string) : Str.split sep s <> [].
Proof.
  destruct s as [|c s]; [done|]. cbn [Str.split].
  destruct (Ascii.eqb c sep); [done|]. by destruct (Str.split sep s).
Qed.

Lemma join_cons (sep c : ascii) (piece : string) (pieces : list string) :
  Str.join sep (String c piece :: pieces) = String c (Str.join sep (piece :: pieces)).
Proof. by destruct pieces. Qed.

(** Joining the pieces with the separator gives the string back. *)
Lemma join_split (sep : ascii) (s : string) : Str.join sep (Str.split sep s) = s.
Proof.
  induction s as [|c s IH]; [done|]. cbn [Str.split].
  pose proof (split_nonempty sep s) as Hne.
  destruct (Ascii.eqb_spec c sep) as [->|_].
  - destruct (Str.split sep s) as [|piece pieces] eqn:Hsplit; [done|].
    change (Str.join sep ("" :: piece :: pieces))
      with (String sep (Str.join sep (piece :: pieces))).
    by rewrite IH.
  - destruct (Str.split sep s) as [|piece pieces] eqn:Hsplit; [done|].
    by rewrite join_cons, IH.
Qed.

(** No piece contains the separator. *)
Lemma split_separator_free (sep : ascii) (s : string) :
  Forall (fun piece => Str.contains sep piece = false) (Str.split sep s).
Proof.
  induction s as [|c s IH]; [by repeat constructor|]. cbn [Str.split].
  destruct (Ascii.eqb c sep) eqn:Hc; [by constructor|].
  destruct (Str.split sep s) as [|piece pieces]; [by repeat constructor; cbn; rewrite Hc|].
  inversion IH as [|? ? Hpiece Hpieces]; subst.
  constructor; [|done]. cbn [Str.contains]. by rewrite Hc, Hpiece.
Qed.

(** There is one more piece than there are separators. *)
Lemma length_split (sep : ascii) (s : string) :
  length (Str.split sep s) = S (Str.count sep s).
Proof.
  induction s as [|c s IH]; [done|]. cbn [Str.split Str.count].
  pose proof (split_nonempty sep s) as Hne.
  destruct (Ascii.eqb c sep); [cbn; by rewrite IH|].
  destruct (Str.split sep s) as [|piece pieces]; [done|]. cbn in *. lia.
Qed.

Lemma split_free (sep : ascii) (s : string) :
  Str.contains sep s = false -> Str.split sep s = [s].
Proof.
  induction s as [|c s IH]; [done|]. cbn [Str.contains Str.split]. intros Hs.
  apply orb_false_iff in Hs as [-> Hs]. by rewrite (IH Hs).
Qed.

Lemma split_app_separator (sep : ascii) (piece rest : string) :
  Str.contains sep piece = false ->
  Str.split sep (piece +:+ String sep rest) = piece :: Str.split sep rest.
Proof.
  induction piece as [|c piece IH]; app_step; cbn [Str.contains Str.split].
  - intros _. by rewrite Ascii.eqb_refl.
  - intros Hs. apply orb_false_iff in Hs as [-> Hs]. by rewrite (IH Hs).
Qed.

(** The pieces are the only way to write the string as separator-free
    texts joined by the separator. *)
Lemma split_join (sep : ascii) (pieces : list string) :
  pieces <> [] ->
  Forall (fun piece => Str.contains sep piece = false) pieces ->
  Str.split sep (Str.join sep pieces) = pieces.
Proof.
  induction pieces as [|piece [|next pieces] IH]; [done|..]; intros _ Hfree.
  - inversion Hfree; subst. by apply split_free.
  - inversion Hfree as [|? ? Hpiece Hrest]; subst.
    change (Str.join sep (piece :: next :: pieces))
      with (piece +:+ String sep (Str.join sep (next :: pieces))).
    rewrite (split_app_separator sep piece _ Hpiece). by rewrite IH.
Qed.

(** *** Trimming *)

Lemma app_nil_r (s : string) : s +:+ "" = s.
Proof. induction s as [|c s IH]; [done|]. app_step. by rewrite IH. Qed.

Lemma app_assoc (a b c : string) : (a +:+ b) +:+ c = a +:+ b +:+ c.
Proof. induction a as [|x a IH]; [done|]. app_step. by rewrite IH. Qed.

Lemma rev_app_spec (s t : string) : String.rev_app s t = String.rev s +:+ t.
Proof.
  unfold String.rev. revert t. induction s as [|c s IH]; intros t; [done|].
  cbn [String.rev_app]. rewrite (IH (String c t)), (IH (String c "")).
  by rewrite app_assoc.
Qed.

Lemma rev_cons (c : ascii) (s : string) :
  String.rev (String c s) = String.rev s +:+ String c "".
Proof. unfold String.rev at 1. cbn [String.rev_app]. apply rev_app_spec. Qed.

Lemma rev_app (a b : string) : String.rev (a +:+ b) = String.rev b +:+ String.rev a.
Proof.
  induction a as [|c a IH]; app_step; [by rewrite app_nil_r|].
  by rewrite !rev_cons, IH, app_assoc.
Qed.

Lemma rev_involutive (s : string) : String.rev (String.rev s) = s.
Proof.
  induction s as [|c s IH]; [done|]. by rewrite rev_cons, rev_app, IH.
Qed.

Lemma white_in_app (backwards : bool) (a b : string) :
  Str.white_in backwards a -> Str.white_in backwards b ->
  Str.white_in backwards (a +:+ b).
Proof.
  intros Ha Hb. induction Ha; app_step; [done|by constructor..].
Qed.

(** White space read backwards is white space. *)
Lemma white_rev (s : string) : Str.white_in true s -> Str.white (String.rev s).
Proof.
  unfold Str.white. induction 1 as [|a s Ha _ IH|a b s Hab _ IH|a b c s Habc _ IH].
  - constructor.
  - rewrite rev_cons. apply white_in_app; [done|]. by repeat constructor.
  - rewrite !rev_cons, app_assoc. apply white_in_app; [done|].
    app_step. apply Str.white_2; [done|constructor].
  - rewrite !rev_cons, !app_assoc. apply white_in_app; [done|].
    app_step. apply Str.white_3; [done|constructor].
Qed.

(** [skip_space] removes white space, and all of it. *)
Lemma skip_space_spec (backwards : bool) (s : string) :
  exists lead,
    s = lead +:+ Str.skip_space backwards s /\
    Str.white_in backwards lead /\
    Str.starts_in backwards (Str.skip_space backwards s) = false.
Proof.
  remember (String.length s) as n eqn:Hn.
  assert (Hlen : (String.length s <= n)%nat) by lia. clear Hn.
  revert s Hlen. induction n as [|n IH]; intros s Hlen.
  { destruct s; [|cbn in Hlen; lia]. exists "".
    split; [done|]. split; [constructor|done]. }
  destruct s as [|a s1].
  { exists "". split; [done|]. split; [constructor|done]. }
  cbn [String.length] in Hlen. cbn [Str.skip_space].
  destruct (Str.space1 a) eqn:Ha.
  { destruct (IH s1) as (lead & Heq & Hwhite & Hstart); [lia|].
    exists (String a lead). app_step. rewrite <- Heq.
    split; [done|]. split; [by constructor|done]. }
  destruct s1 as [|b s2].
  { exists "". split; [done|]. split; [constructor|]. cbn. by rewrite Ha. }
  cbn [String.length] in Hlen.
  destruct (Str.space2_in backwards a b) eqn:Hab.
  { destruct (IH s2) as (lead & Heq & Hwhite & Hstart); [lia|].
    exists (String a (String b lead)). app_step. rewrite <- Heq.
    split; [done|]. split; [by apply Str.white_2|done]. }
  destruct s2 as [|c s3].
  { exists "". split; [done|]. split; [constructor|]. cbn. by rewrite Ha, Hab. }
  cbn [String.length] in Hlen.
  destruct (Str.space3_in backwards a b c) eqn:Habc.
  { destruct (IH s3) as (lead & Heq & Hwhite & Hstart); [lia|].
    exists (String a (String b (String c lead))). app_step. rewrite <- Heq.
    split; [done|]. split; [by apply Str.white_3|done]. }
  exists "". split; [done|]. split; [constructor|]. cbn. by rewrite Ha, Hab, Habc.
Qed.

(** A leading white-space character stays one when more text follows. *)
Lemma starts_in_app (backwards : bool) (s t : string) :
  Str.starts_in backwards s = true -> Str.starts_in backwards (s +:+ t) = true.
Proof.
  destruct s as [|a [|b [|c s]]]; app_step; cbn [Str.starts_in]; [done|..].
  - intros ->. by destruct t as [|? [|? ?]].
  - intros ->. by destruct t.
  - done.
Qed.

(** [trim] removes the white space at both ends of a string, and
    nothing else. *)
Lemma trim_trimmed (s : string) : Str.trimmed s (Str.trim s).
Proof.
  unfold Str.trimmed, Str.trim, Str.trimEnd, Str.trimStart.
  destruct (skip_space_spec false s) as (lead & Hs & Hlead & Hstart).
  set (t1 := Str.skip_space false s) in *.
  destruct (skip_space_spec true (String.rev t1)) as (back & Ht1 & Htrail & Hend).
  set (u := Str.skip_space true (String.rev t1)) in *.
  assert (Ht1' : t1 = String.rev u +:+ String.rev back).
  { by rewrite <- rev_app, <- Ht1, rev_involutive. }
  exists lead, (String.rev back). split; [by rewrite <- Ht1'|].
  split; [done|]. split; [by apply white_rev|]. split.
  - destruct (Str.starts_with_space (String.rev u)) eqn:Hu; [|done].
    apply (starts_in_app false _ (String.rev back)) in Hu.
    rewrite <- Ht1' in Hu. unfold Str.starts_with_space in *. congruence.
  - unfold Str.ends_with_space. by rewrite rev_involutive.
Qed.

End StrFacts.

(** ** [parseUnits] *)

Module ViemFacts.
Import Js Viem StrFacts.

Lemma bind_Normal {A B} (a : A) (k : A -> Completion B) : (Normal a ≫= k) = k a.
Proof. reflexivity. Qed.

Lemma digit_not_dot (c : ascii) : Str.is_digit c = true -> Ascii.eqb c "." = false.
Proof.
  intros Hc. destruct (Ascii.eqb_spec c ".") as [->|]; [discriminate Hc|done].
Qed.

Lemma digit_not_minus (c : ascii) : Str.is_digit c = true -> Ascii.eqb c "-" = false.
Proof.
  intros Hc. destruct (Ascii.eqb_spec c "-") as [->|]; [discriminate Hc|done].
Qed.

Lemma digits_value_Some (s : string) (acc : Z) :
  Str.all_digits s = true -> (0 <= acc)%Z ->
  exists n, digits_value acc s = Some n /\ (0 <= n)%Z.
Proof.
  revert acc. induction s as [|c s IH]; intros acc Hs Hacc.
  - by exists acc.
  - cbn [Str.all_digits] in Hs. apply andb_true_iff in Hs as [Hc Hs].
    cbn [digits_value]. rewrite Hc. apply IH; [done|].
    unfold Str.is_digit in Hc. apply andb_true_iff in Hc as [Hlo _].
    apply Nat.leb_le in Hlo. lia.
Qed.

(** [BigInt] reads a string that does not start with a minus sign as
    digits. *)
Lemma BigInt_unsigned (s : string) :
  Str.startsWith "-" s = false ->
  BigInt s = match digits_value 0 s with
             | Some n => Normal n
             | None => Throw SyntaxError
             end.
Proof.
  destruct s as [|c s]; [done|]. cbn [Str.startsWith]. intros Hc.
  destruct (Ascii.eqb_spec c "-") as [->|Hne]; [done|].
  unfold BigInt.
  destruct c as [[] [] [] [] [] [] [] []]; try reflexivity. by destruct Hne.
Qed.

Lemma BigInt_digits (s : string) :
  Str.all_digits s = true -> exists n, BigInt s = Normal n /\ (0 <= n)%Z.
Proof.
  intros Hs. rewrite BigInt_unsigned.
  - destruct (digits_value_Some s 0 Hs) as (n & -> & Hn); [lia|]. by exists n.
  - destruct s as [|c s]; [done|]. cbn [Str.all_digits] in Hs.
    apply andb_true_iff in Hs as [Hc _]. by apply digit_not_minus.
Qed.

Lemma BigInt_minus_digits (s : string) :
  Str.all_digits s = true -> s <> "" -> exists n, BigInt ("-" +:+ s) = Normal n.
Proof.
  intros Hs Hne. destruct s as [|c s]; [done|].
  change ("-" +:+ String c s) with (String "-" (String c s)).
  cbn [BigInt]. destruct (digits_value_Some (String c s) 0 Hs) as (n & -> & _); [lia|].
  by eexists.
Qed.

Lemma split_digits (s : string) :
  Str.all_digits s = true -> Str.split "." s = [s].
Proof.
  induction s as [|c s IH]; [done|]. cbn [Str.all_digits]. intros Hs.
  apply andb_true_iff in Hs as [Hc Hs].
  cbn [Str.split]. rewrite (digit_not_dot c Hc), (IH Hs). done.
Qed.

(** The pieces of an unsigned numeral the test accepts. *)
Lemma split_digits_dot_digits (s : string) :
  digits_dot_digits s = true ->
  exists i rest, Str.split "." s = i :: rest /\ Str.all_digits i = true /\
    (rest = [] \/ exists f, rest = [f] /\ Str.all_digits f = true).
Proof.
  induction s as [|c s IH]; cbn [digits_dot_digits].
  - intros _. exists "", []. auto.
  - destruct (Str.is_digit c) eqn:Hc.
    + intros Hs. destruct (IH Hs) as (i & rest & Hsplit & Hi & Hrest).
      exists (String c i), rest. cbn [Str.split Str.all_digits].
      rewrite (digit_not_dot c Hc), Hsplit, Hc, Hi. auto.
    + intros Hs. apply andb_true_iff in Hs as [Hdot Hs].
      exists "", [s]. cbn [Str.split]. rewrite Hdot, (split_digits s Hs).
      split; [done|]. split; [done|]. right. by exists s.
Qed.

Section parseUnits.
Context `{Engine}.

Lemma round_fraction_digits (integer fraction : string) :
  Str.all_digits integer = true -> Str.all_digits fraction = true ->
  (6 < String.length fraction)%nat ->
  exists i f, round_fraction integer fraction 6 = Normal (i, f) /\
    Str.all_digits i = true /\ Str.all_digits f = true /\ f <> "".
Proof.
  intros Hi Hf Hlen. unfold round_fraction, Str.slice, Str.slice_from.
  change (6 - 1)%nat with 5%nat. change (6 - 5)%nat with 1%nat.
  change (5 - 0)%nat with 5%nat. change (6 - 0)%nat with 6%nat.
  destruct (substring_digit 5 fraction Hf) as (d & -> & Hd); [lia|].
  set (left := String.substring 0 5 fraction).
  set (right := String.substring 6 (String.length fraction - 6) fraction).
  assert (Hleft : Str.all_digits left = true) by by apply all_digits_substring.
  assert (Hleftlen : String.length left = 5%nat).
  { unfold left. rewrite length_substring. lia. }
  assert (Hright : Str.all_digits right = true) by by apply all_digits_substring.
  change (String d "" +:+ "." +:+ right) with (String d ("." +:+ right)).
  pose proof (Math_round_Number_range d right Hd Hright) as Hround.
  set (rounded := Math_round_Number (String d ("." +:+ right))) in *.
  (* the rounded fraction *)
  assert (exists f1, (if (9 <? rounded)%Z
            then l ← BigInt left;
                 Normal (Str.padStart (String.length left + 1) "0" (pretty (l + 1)%Z +:+ "0"))
            else Normal (left +:+ pretty rounded)) = Normal f1
          /\ Str.all_digits f1 = true /\ (5 <= String.length f1)%nat)
    as (f1 & -> & Hf1 & Hf1len).
  { destruct (9 <? rounded)%Z.
    - destruct (BigInt_digits left Hleft) as (l & -> & Hl). rewrite bind_Normal.
      eexists. split; [done|]. unfold Str.padStart.
      rewrite all_digits_app, all_digits_repeat_zero, all_digits_app,
        all_digits_pretty by lia.
      split; [done|]. rewrite !length_app, length_repeat_char. lia.
    - eexists. split; [done|].
      rewrite all_digits_app, Hleft, all_digits_pretty by lia.
      split; [done|]. rewrite length_app. lia. }
  rewrite bind_Normal.
  (* the carry into the integer part *)
  assert (exists i2 f2, (if (6 <? String.length f1)%nat
            then i ← BigInt integer;
                 Normal (pretty (i + 1)%Z,
                         String.substring 1 (String.length f1 - 1) f1)
            else Normal (integer, f1)) = Normal (i2, f2)
          /\ Str.all_digits i2 = true /\ Str.all_digits f2 = true
          /\ (5 <= String.length f2)%nat)
    as (i2 & f2 & -> & Hi2 & Hf2 & Hf2len).
  { destruct (6 <? String.length f1)%nat eqn:Hcarry.
    - apply Nat.ltb_lt in Hcarry.
      destruct (BigInt_digits integer Hi) as (i & -> & Hipos). rewrite bind_Normal.
      do 2 eexists. split; [done|].
      rewrite all_digits_pretty by lia. rewrite all_digits_substring by done.
      repeat split. rewrite length_substring. lia.
    - by exists integer, f1. }
  rewrite bind_Normal.
  do 2 eexists. split; [done|]. split; [done|].
  split; [by apply all_digits_substring|].
  intros Hempty. apply (f_equal String.length) in Hempty.
  rewrite length_substring in Hempty.
  change (String.length "") with 0%nat in Hempty. lia.
Qed.

Lemma scale_digits (integer fraction : string) :
  Str.all_digits integer = true -> Str.all_digits fraction = true ->
  exists i f, scale integer fraction 6 = Normal (i, f) /\
    Str.all_digits i = true /\ Str.all_digits f = true /\ f <> "".
Proof.
  intros Hi Hf. unfold scale. change (6 =? 0)%nat with false. cbv iota.
  destruct (6 <? String.length fraction)%nat eqn:Hlong.
  - apply Nat.ltb_lt in Hlong. by apply round_fraction_digits.
  - apply Nat.ltb_ge in Hlong. do 2 eexists. split; [done|]. split; [done|].
    unfold Str.padEnd. rewrite all_digits_app, Hf, all_digits_repeat_zero.
    split; [done|]. intros Hempty. apply (f_equal String.length) in Hempty.
    rewrite length_app, length_repeat_char in Hempty.
    change (String.length "") with 0%nat in Hempty. lia.
Qed.

Lemma fraction_digits (rest : list string) (first : string) :
  rest = [] \/ (exists f, rest = [f] /\ Str.all_digits f = true) ->
  exists f, Str.all_digits f = true /\
    match first :: rest with _ :: f' :: _ => f' | _ => "0" end = f.
Proof. intros [->|(f & -> & Hf)]; [by exists "0"|by exists f]. Qed.

(** On a numeral that passes its test [parseUnits] returns. *)
Lemma parseUnits_accepts (s : string) :
  decimal_number s = true -> exists amt, parseUnits (JStr s) 6 = Normal amt.
Proof.
  intros Hs. unfold parseUnits. cbn [to_string]. rewrite bind_Normal, Hs.
  cbn [negb]. unfold decimal_number in Hs.
  apply andb_true_iff in Hs as [Hshape _].
  destruct (Str.startsWith "-" s) eqn:Hsign.
  - (* a minus sign, then the unsigned numeral *)
    destruct s as [|c s]; [done|]. cbn [Str.startsWith] in Hsign.
    apply Ascii.eqb_eq in Hsign as ->.
    change (numeral_shape (String "-" s)) with (digits_dot_digits s) in Hshape.
    destruct (split_digits_dot_digits s Hshape) as (i & rest & Hsplit & Hi & Hrest).
    cbn [Str.split]. change (Ascii.eqb "-" ".") with false. cbv iota.
    rewrite Hsplit. cbn [Str.startsWith]. change (Ascii.eqb "-" "-") with true.
    cbv iota. rewrite slice_from_1.
    destruct (fraction_digits rest (String "-" i) Hrest) as (f & Hf & ->).
    destruct (scale_digits i (Str.strip_trailing_zeros f) Hi (all_digits_strip f Hf))
      as (i' & f' & -> & Hi' & Hf' & Hne).
    rewrite bind_Normal. cbv beta iota.
    apply BigInt_minus_digits.
    + by rewrite all_digits_app, Hi', Hf'.
    + intros Hempty. apply (f_equal String.length) in Hempty.
      rewrite length_app in Hempty. destruct f'; [done|]. cbn in Hempty. lia.
  - (* no sign *)
    assert (Hs' : digits_dot_digits s = true).
    { destruct s as [|c s]; [done|]. cbn [Str.startsWith] in Hsign.
      revert Hshape. unfold numeral_shape.
      destruct c as [[] [] [] [] [] [] [] []]; try done. }
    destruct (split_digits_dot_digits s Hs') as (i & rest & Hsplit & Hi & Hrest).
    rewrite Hsplit.
    assert (Hnosign : Str.startsWith "-" i = false).
    { destruct i as [|c i]; [done|]. cbn [Str.all_digits] in Hi.
      apply andb_true_iff in Hi as [Hc _]. by apply digit_not_minus. }
    rewrite Hnosign.
    destruct (fraction_digits rest i Hrest) as (f & Hf & ->).
    destruct (scale_digits i (Str.strip_trailing_zeros f) Hi (all_digits_strip f Hf))
      as (i' & f' & -> & Hi' & Hf' & Hne).
    rewrite bind_Normal. cbv beta iota. change ("" +:+ i' +:+ f') with (i' +:+ f').
    destruct (BigInt_digits (i' +:+ f')) as (n & -> & _); [|by exists n].
    by rewrite all_digits_app, Hi', Hf'.
Qed.

(** On every other value it throws. *)
Lemma parseUnits_rejects (v : json) :
  Approval.valid_decimal_numeral v = false -> exists e, parseUnits v 6 = Throw e.
Proof.
  intros Hv. unfold parseUnits.
  destruct (to_string v) as [text|e] eqn:Htext; [|by exists e].
  rewrite bind_Normal. destruct (decimal_number text) eqn:Hnum; cbn [negb].
  - destruct v; try by eexists.
    cbn [to_string Approval.valid_decimal_numeral] in Htext, Hv. congruence.
  - by eexists.
Qed.

End parseUnits.

End ViemFacts.

(** ** The approval route *)

Module ApprovalFacts.
Import Js Viem Approval ViemFacts.

Section route.
Context `{Engine} `{Imports}.

Lemma chainConfigs_optimism : chainConfigs !! "optimism-sepolia" = Some optimism_config.
Proof. unfold chainConfigs. by simplify_map_eq. Qed.

Lemma chainConfigs_arbitrum : chainConfigs !! "arbitrum-sepolia" = Some arbitrum_config.
Proof. unfold chainConfigs. by simplify_map_eq. Qed.

Lemma chainConfigs_Some (key : string) (config : ChainConfig) :
  chainConfigs !! key = Some config ->
  key = "optimism-sepolia" /\ config = optimism_config \/
  key = "arbitrum-sepolia" /\ config = arbitrum_config.
Proof.
  unfold chainConfigs. intros Hkey.
  apply lookup_insert_Some in Hkey as [[<- <-]|[_ Hkey]]; [by left|].
  apply lookup_singleton_Some in Hkey as [<- <-]. by right.
Qed.

(** A configured key is not the name of a member of [Object.prototype]. *)
Lemma element_configuration (chainKey : json) (key : string) :
  to_string chainKey = Normal key ->
  match configuration chainKey with
  | Some config => element key = Some (Own config)
  | None => element key = None \/ exists name, element key = Some (Inherited name)
  end.
Proof.
  intros Hkey. unfold configuration, element. rewrite Hkey.
  destruct (chainConfigs !! key); [done|].
  case_bool_decide; [right; by eexists|by left].
Qed.

Lemma POST_unparsed (req : NextRequest) :
  parsed req = None -> POST req = bad_request.
Proof. intros Hreq. unfold POST, prepare, req_json. by rewrite Hreq. Qed.

Lemma POST_guard (req : NextRequest) :
  truthy (untrustedData_of req) = false \/ truthy (trustedData_of req) = false ->
  POST req = bad_request.
Proof.
  unfold untrustedData_of, trustedData_of, field, POST, prepare, req_json.
  destruct (parsed req) as [json|]; [|done]. rewrite bind_Normal.
  cbn [get_of]. destruct (get json "untrustedData") as [u|] eqn:Hu; [|done].
  destruct (get json "trustedData") as [t|] eqn:Ht.
  - rewrite !bind_Normal. intros [-> | ->]; [reflexivity|].
    rewrite orb_true_r. reflexivity.
  - destruct json; discriminate.
Qed.

(** A value the guard accepts can be read from. *)
Lemma get_of_truthy (v : value) (key : string) :
  truthy v = true -> get_of v key = Normal (field v key).
Proof.
  unfold field. destruct v as [[]|]; try done.
Qed.

Lemma get_truthy_field (json : Js.json) (key : string) :
  truthy (field (Some json) key) = true ->
  get json key = Normal (field (Some json) key).
Proof. unfold field. cbn [get_of]. by destruct (get json key). Qed.

Lemma prepare_after_guard (req : NextRequest) :
  carries_frame_data req ->
  prepare req =
    after_guard (field (untrustedData_of req) "network")
                (field (untrustedData_of req) "inputText").
Proof.
  unfold carries_frame_data, untrustedData_of, trustedData_of. intros [Hu Ht].
  destruct (parsed req) as [json|] eqn:Hparsed; [|discriminate Hu].
  unfold prepare, req_json, after_guard.
  rewrite Hparsed, bind_Normal.
  rewrite (get_truthy_field json _ Hu), bind_Normal.
  rewrite (get_truthy_field json _ Ht), bind_Normal.
  rewrite Hu, Ht. cbn [negb orb]. rewrite bind_Normal.
  rewrite (get_of_truthy _ "network" Hu), bind_Normal.
  destruct (to_string _) as [key|]; [|reflexivity]. rewrite !bind_Normal.
  destruct (element key) as [e|]; [|reflexivity]. rewrite !bind_Normal.
  rewrite (get_of_truthy _ "inputText" Hu), bind_Normal.
  destruct (parseUnits _ 6) as [amt|]; [|reflexivity]. rewrite !bind_Normal.
  destruct (encodeFunctionData _ _ _) as [calldata|]; [|reflexivity].
  rewrite !bind_Normal. destruct e; reflexivity.
Qed.

Lemma POST_after_guard (req : NextRequest) :
  carries_frame_data req ->
  POST req =
    try_catch
      (after_guard (field (untrustedData_of req) "network")
                   (field (untrustedData_of req) "inputText"))
      (fun _ => bad_request).
Proof. intros Hreq. unfold POST. by rewrite prepare_after_guard. Qed.

(** What happens after the guard, by the configuration of the key and
    the validity of the amount. *)
Lemma after_guard_cases (network inputText : value) :
  let chainKey := or_else network (JStr "optimism-sepolia") in
  let inputAmount := or_else inputText (JStr "1") in
  match configuration chainKey with
  | None => exists e, after_guard network inputText = Throw e
  | Some config =>
      if valid_decimal_numeral inputAmount
      then exists amt,
        parseUnits inputAmount 6 = Normal amt /\
        after_guard network inputText =
          (calldata ← encodeFunctionData USDCABI "approve"
                        [AString (contractAddress config); ABigInt amt];
           Normal (ok_response config calldata))
      else exists e, after_guard network inputText = Throw e
  end.
Proof.
  intros chainKey inputAmount. unfold after_guard. fold chainKey inputAmount.
  destruct (to_string chainKey) as [key|e] eqn:Hkey.
  2: { unfold configuration. rewrite Hkey. by exists e. }
  rewrite bind_Normal. pose proof (element_configuration chainKey key Hkey) as Helement.
  destruct (configuration chainKey) as [config|].
  - rewrite Helement, bind_Normal.
    destruct (valid_decimal_numeral inputAmount) eqn:Hvalid.
    + destruct inputAmount as [| | |s| |]; try discriminate Hvalid.
      destruct (parseUnits_accepts s Hvalid) as [amt Hamt].
      exists amt. split; [done|]. by rewrite Hamt, bind_Normal.
    + destruct (parseUnits_rejects inputAmount Hvalid) as [e ->]. by exists e.
  - destruct Helement as [->|[name ->]]; [by eexists|].
    rewrite bind_Normal.
    destruct (parseUnits inputAmount 6) as [amt|e]; [|by exists e].
    rewrite bind_Normal.
    destruct (encodeFunctionData _ _ _) as [calldata|e]; [|by exists e].
    rewrite bind_Normal. by eexists.
Qed.

(** A body of the declared interface passes the guard, and its two
    optional fields are read as they were sent. *)
Lemma frame_request_fields (r : FrameRequest) :
  carries_frame_data (frame_request r) /\
  field (untrustedData_of (frame_request r)) "network"
    = JStr <$> network (untrustedData r) /\
  field (untrustedData_of (frame_request r)) "inputText"
    = JStr <$> inputText (untrustedData r).
Proof.
  destruct r as [[? [text|] ? ? ? ? ? [key|]] ?]; by repeat split.
Qed.

(** For the parts of a body, absent means [undefined] as long as the
    body keeps to the interface: an object is never absent. *)
Lemma absent_undefined : absent undefined.
Proof. done. Qed.

Lemma object_not_absent (members : list (string * json)) :
  ~ absent (Some (JObj members)).
Proof. discriminate. Qed.

Lemma ok_response_not_bad (config : ChainConfig) (calldata : string) :
  ok_response config calldata <> bad_request.
Proof. discriminate. Qed.

(** Every request is answered in one of two ways: with the descriptor,
    after every step has succeeded, or with the 400 response, for one of
    six causes. *)
Lemma POST_cases (req : NextRequest) :
  (carries_frame_data req /\
   exists config amt calldata,
     configuration (resolved_network req) = Some config /\
     parseUnits (resolved_amount req) 6 = Normal amt /\
     encodeFunctionData USDCABI "approve"
       [AString (contractAddress config); ABigInt amt] = Normal calldata /\
     POST req = ok_response config calldata)
  \/
  (POST req = bad_request /\
   (parsed req = None \/
    absent (untrustedData_of req) \/
    absent (trustedData_of req) \/
    configuration (resolved_network req) = None \/
    valid_decimal_numeral (resolved_amount req) = false \/
    encoding_throws req)).
Proof.
  unfold absent.
  destruct (parsed req) as [json|] eqn:Hparsed.
  2: { right. split; [by apply POST_unparsed|by left]. }
  destruct (truthy (untrustedData_of req)) eqn:Hu.
  2: { right. split; [apply POST_guard; by left|auto]. }
  destruct (truthy (trustedData_of req)) eqn:Ht.
  2: { right. split; [apply POST_guard; by right|auto]. }
  assert (Hreq : carries_frame_data req) by done.
  rewrite (POST_after_guard req Hreq).
  pose proof (after_guard_cases (field (untrustedData_of req) "network")
                (field (untrustedData_of req) "inputText")) as Hcases.
  cbv zeta in Hcases. fold (resolved_network req) (resolved_amount req) in Hcases.
  destruct (configuration (resolved_network req)) as [config|] eqn:Hconfig.
  2: { right. destruct Hcases as [e ->]. split; [reflexivity|auto]. }
  destruct (valid_decimal_numeral (resolved_amount req)) eqn:Hvalid.
  2: { right. destruct Hcases as [e ->]. split; [reflexivity|auto 6]. }
  destruct Hcases as (amt & Hamt & ->).
  destruct (encodeFunctionData USDCABI "approve"
              [AString (contractAddress config); ABigInt amt])
    as [calldata|e] eqn:Hencode.
  - left. split; [done|]. by exists config, amt, calldata.
  - right. split; [reflexivity|]. do 5 right. by exists config, amt, e.
Qed.

(** C2: the handler answers 400 with the body
    [{error: "Failed to process frame request"}] exactly when the body
    does not parse as JSON, or [untrustedData] is absent, or [trustedData]
    is absent, or the resolved network key has no chain configuration, or
    the resolved amount text is no valid decimal numeral, or the encoding
    throws.  That response is one fixed value, so it tells nothing of the
    cause; in every other case the answer is 200 with the descriptor of
    the configured chain and the encoded call. *)
Theorem POST_bad_request_iff (req : NextRequest) :
  (POST req = bad_request <->
     parsed req = None \/
     absent (untrustedData_of req) \/
     absent (trustedData_of req) \/
     configuration (resolved_network req) = None \/
     valid_decimal_numeral (resolved_amount req) = false \/
     encoding_throws req)
  /\
  (POST req <> bad_request ->
     exists config amt calldata,
       configuration (resolved_network req) = Some config /\
       parseUnits (resolved_amount req) 6 = Normal amt /\
       encodeFunctionData USDCABI "approve"
         [AString (contractAddress config); ABigInt amt] = Normal calldata /\
       POST req = ok_response config calldata).
Proof.
  destruct (POST_cases req)
    as [[[Hu Ht] (config & amt & calldata & Hconfig & Hamt & Hencode & Hok)]
       |[Hbad Hcause]].
  - split.
    + split.
      * intros Hbad. rewrite Hok in Hbad. by apply ok_response_not_bad in Hbad.
      * unfold absent.
        intros [Hparsed|[Hu'|[Ht'|[Hnone|[Hinvalid|Hthrows]]]]]; exfalso.
        -- unfold untrustedData_of in Hu. by rewrite Hparsed in Hu.
        -- congruence.
        -- congruence.
        -- congruence.
        -- destruct (parseUnits_rejects _ Hinvalid) as [e He]. congruence.
        -- destruct Hthrows as (config' & amt' & e & Hconfig' & Hamt' & He).
           congruence.
    + intros _. by exists config, amt, calldata.
  - split; [by split|]. by intros [].
Qed.

(** The response once the key names a configuration and the amount
    parses. *)
Lemma POST_ok (req : NextRequest) (config : ChainConfig) (amt : Z) (calldata : string) :
  carries_frame_data req ->
  configuration (resolved_network req) = Some config ->
  parseUnits (resolved_amount req) 6 = Normal amt ->
  encodeFunctionData USDCABI "approve"
    [AString (contractAddress config); ABigInt amt] = Normal calldata ->
  POST req = ok_response config calldata.
Proof.
  intros Hreq Hconfig Hamt Hencode.
  destruct (POST_cases req)
    as [[_ (config' & amt' & calldata' & Hconfig' & Hamt' & Hencode' & Hok)]
       |[_ Hcause]].
  - rewrite Hok. congruence.
  - exfalso. destruct Hreq as [Hu Ht]. unfold absent in Hcause.
    destruct Hcause as [Hparsed|[Hu'|[Ht'|[Hnone|[Hinvalid|Hthrows]]]]].
    + unfold untrustedData_of in Hu. by rewrite Hparsed in Hu.
    + congruence.
    + congruence.
    + congruence.
    + destruct (parseUnits_rejects _ Hinvalid) as [e He]. congruence.
    + destruct Hthrows as (config' & amt' & e & Hconfig' & Hamt' & He). congruence.
Qed.

Lemma parseUnits_5 : parseUnits (JStr "5") 6 = Normal 5000000%Z.
Proof. reflexivity. Qed.

Lemma parseUnits_1 : parseUnits (JStr "1") 6 = Normal 1000000%Z.
Proof. reflexivity. Qed.

(** C1: with [untrustedData.network = "arbitrum-sepolia"] and
    [untrustedData.inputText = "5"] in a body that carries both
    [untrustedData] and [trustedData], the handler answers 200 with
    [chainId] "eip155:" followed by the id of [arbitrumSepolia], [method]
    "eth_sendTransaction", [params.to] the arbitrum-sepolia USDC address
    and [params.data] the encoding of [approve] for the arbitrum-sepolia
    deposit contract and the amount 5000000. *)
Theorem POST_arbitrum_five (req : NextRequest) (calldata : string) :
  carries_frame_data req ->
  field (untrustedData_of req) "network" = Some (JStr "arbitrum-sepolia") ->
  field (untrustedData_of req) "inputText" = Some (JStr "5") ->
  encodeFunctionData USDCABI "approve"
    [AString contractAddresses_arbitrumSepolia; ABigInt 5000000] = Normal calldata ->
  POST req =
    {| status := 200;
       body := Descriptor
         {| chainId := "eip155:" +:+ pretty (id arbitrumSepolia);
            method := "eth_sendTransaction";
            params := {| abi := USDCABI; to := USDC_arbitrumSepolia;
                         data := calldata |} |} |}.
Proof.
  intros Hreq Hnetwork HinputText Hencode.
  apply (POST_ok req arbitrum_config 5000000 calldata Hreq).
  - unfold resolved_network. rewrite Hnetwork. apply chainConfigs_arbitrum.
  - unfold resolved_amount. rewrite HinputText. apply parseUnits_5.
  - exact Hencode.
Qed.

(** C5: in a body that carries both [untrustedData] and [trustedData],
    an absent [untrustedData.network] selects the optimism-sepolia
    configuration (its chain id, deposit contract and USDC address), and
    an absent [untrustedData.inputText] makes the approved amount 1000000
    base units, the text "1" scaled by 6 decimals. *)
Theorem POST_defaults (req : NextRequest) :
  carries_frame_data req ->
  (field (untrustedData_of req) "network" = undefined ->
     resolved_network req = JStr "optimism-sepolia" /\
     configuration (resolved_network req) = Some optimism_config /\
     forall amt calldata,
       parseUnits (resolved_amount req) 6 = Normal amt ->
       encodeFunctionData USDCABI "approve"
         [AString contractAddresses_optimismSepolia; ABigInt amt] = Normal calldata ->
       POST req =
         {| status := 200;
            body := Descriptor
              {| chainId := "eip155:" +:+ pretty (id optimismSepolia);
                 method := "eth_sendTransaction";
                 params := {| abi := USDCABI; to := USDC_optimismSepolia;
                              data := calldata |} |} |})
  /\
  (field (untrustedData_of req) "inputText" = undefined ->
     resolved_amount req = JStr "1" /\
     parseUnits (resolved_amount req) 6 = Normal 1000000%Z /\
     forall config calldata,
       configuration (resolved_network req) = Some config ->
       encodeFunctionData USDCABI "approve"
         [AString (contractAddress config); ABigInt 1000000] = Normal calldata ->
       POST req = ok_response config calldata).
Proof.
  intros Hreq. split.
  - intros Hnetwork.
    assert (Hkey : resolved_network req = JStr "optimism-sepolia").
    { unfold resolved_network. by rewrite Hnetwork. }
    assert (Hconfig : configuration (resolved_network req) = Some optimism_config).
    { rewrite Hkey. apply chainConfigs_optimism. }
    split; [done|]. split; [done|]. intros amt calldata Hamt Hencode.
    by apply (POST_ok req optimism_config amt calldata).
  - intros HinputText.
    assert (Htext : resolved_amount req = JStr "1").
    { unfold resolved_amount. by rewrite HinputText. }
    assert (Hamt : parseUnits (resolved_amount req) 6 = Normal 1000000%Z).
    { rewrite Htext. apply parseUnits_1. }
    split; [done|]. split; [done|]. intros config calldata Hconfig Hencode.
    by apply (POST_ok req config 1000000 calldata).
Qed.

(** C10: the defaults treat an empty string as an absent field: in a
    body that carries both [untrustedData] and [trustedData],
    [untrustedData.network = ""] selects the optimism-sepolia
    configuration, and [untrustedData.inputText = ""] becomes the amount
    text "1", 1000000 base units, and is not handed to the parser. *)
Theorem POST_empty_strings_default (req : NextRequest) :
  carries_frame_data req ->
  (field (untrustedData_of req) "network" = Some (JStr "") ->
     resolved_network req = JStr "optimism-sepolia" /\
     configuration (resolved_network req) = Some optimism_config /\
     forall amt calldata,
       parseUnits (resolved_amount req) 6 = Normal amt ->
       encodeFunctionData USDCABI "approve"
         [AString contractAddresses_optimismSepolia; ABigInt amt] = Normal calldata ->
       POST req =
         {| status := 200;
            body := Descriptor
              {| chainId := "eip155:" +:+ pretty (id optimismSepolia);
                 method := "eth_sendTransaction";
                 params := {| abi := USDCABI; to := USDC_optimismSepolia;
                              data := calldata |} |} |})
  /\
  (field (untrustedData_of req) "inputText" = Some (JStr "") ->
     resolved_amount req = JStr "1" /\
     parseUnits (resolved_amount req) 6 = Normal 1000000%Z /\
     forall config calldata,
       configuration (resolved_network req) = Some config ->
       encodeFunctionData USDCABI "approve"
         [AString (contractAddress config); ABigInt 1000000] = Normal calldata ->
       POST req = ok_response config calldata).
Proof.
  intros Hreq. split.
  - intros Hnetwork.
    assert (Hkey : resolved_network req = JStr "optimism-sepolia").
    { unfold resolved_network. by rewrite Hnetwork. }
    assert (Hconfig : configuration (resolved_network req) = Some optimism_config).
    { rewrite Hkey. apply chainConfigs_optimism. }
    split; [done|]. split; [done|]. intros amt calldata Hamt Hencode.
    by apply (POST_ok req optimism_config amt calldata).
  - intros HinputText.
    assert (Htext : resolved_amount req = JStr "1").
    { unfold resolved_amount. by rewrite HinputText. }
    assert (Hamt : parseUnits (resolved_amount req) 6 = Normal 1000000%Z).
    { rewrite Htext. apply parseUnits_1. }
    split; [done|]. split; [done|]. intros config calldata Hconfig Hencode.
    by apply (POST_ok req config 1000000 calldata).
Qed.

(** C9: two requests that both carry [untrustedData] and [trustedData]
    and agree on [untrustedData.network] and [untrustedData.inputText]
    get identical responses, whatever their other fields hold. *)
Theorem POST_depends_on_network_and_inputText (req1 req2 : NextRequest) :
  carries_frame_data req1 -> carries_frame_data req2 ->
  field (untrustedData_of req1) "network" = field (untrustedData_of req2) "network" ->
  field (untrustedData_of req1) "inputText" = field (untrustedData_of req2) "inputText" ->
  POST req1 = POST req2.
Proof.
  intros Hreq1 Hreq2 Hnetwork HinputText.
  rewrite (POST_after_guard req1 Hreq1), (POST_after_guard req2 Hreq2).
  by rewrite Hnetwork, HinputText.
Qed.

End route.

End ApprovalFacts.

(** ** The registration page *)

Module RegistrationFacts.
Import Js Registration.

(** Unfolds the monad of handler runs. *)
Ltac run_handler :=
  cbv beta iota zeta delta
    [mbind mret Eff_bind Eff_ret read write perform throw lift
     setError setLoading setToast setFormData try_catch_finally
     await_fetch response_json response_ok get ui trace fst snd negb].

(** The state and the trace a submit attempt ends with, by its outcome.
    The attempt always completes: no exception leaves the handler. *)
Lemma handleSubmit_run (page : Page) (s : State) :
  run (handleSubmit page) s =
    (Normal (),
     match outcome page s with
     | no_wallet =>
         {| ui := with_feedback s
                    {| type := Some WALLET_NOT_CONNECTED;
                       message := "Please connect your wallet first" |}
                    (toast s);
            trace := [preventDefault] |}
     | registered =>
         {| ui := with_feedback s
                    {| type := None; message := "" |}
                    {| Toast.show := true;
                       Toast.message := "Registration successful! Redirecting to dashboard...";
                       Toast.type := Toast.success |};
            trace := [preventDefault; request page s;
                      setTimeout_router_push "/home" 3000] |}
     | already_registered =>
         {| ui := with_feedback s
                    {| type := Some ALREADY_REGISTERED;
                       message := "This wallet is already registered. Cannot register more than once." |}
                    {| Toast.show := true;
                       Toast.message := "This wallet is already registered";
                       Toast.type := Toast.warning |};
            trace := [preventDefault; request page s] |}
     | failed =>
         {| ui := with_feedback s
                    {| type := Some REGISTRATION_FAILED;
                       message := "Registration failed. Please try again later." |}
                    {| Toast.show := true;
                       Toast.message := "Registration failed. Please try again later.";
                       Toast.type := Toast.error |};
            trace := [preventDefault; request page s] |}
     end).
Proof.
  unfold outcome, run, handleSubmit, request, reply_to.
  destruct (no_address (address page)); [reflexivity|].
  run_handler.
  destruct (endpoint page _ _) as [|[] [data|]]; try reflexivity.
  destruct data as [| | | | |members]; try reflexivity.
  unfold says. run_handler.
  destruct (strict_equal (own_member "message" members) _); reflexivity.
Qed.

Lemma state_after_handleSubmit (page : Page) (s : State) :
  state_after (handleSubmit page) s =
    match outcome page s with
    | no_wallet =>
        with_feedback s
          {| type := Some WALLET_NOT_CONNECTED;
             message := "Please connect your wallet first" |}
          (toast s)
    | registered =>
        with_feedback s
          {| type := None; message := "" |}
          {| Toast.show := true;
             Toast.message := "Registration successful! Redirecting to dashboard...";
             Toast.type := Toast.success |}
    | already_registered =>
        with_feedback s
          {| type := Some ALREADY_REGISTERED;
             message := "This wallet is already registered. Cannot register more than once." |}
          {| Toast.show := true;
             Toast.message := "This wallet is already registered";
             Toast.type := Toast.warning |}
    | failed =>
        with_feedback s
          {| type := Some REGISTRATION_FAILED;
             message := "Registration failed. Please try again later." |}
          {| Toast.show := true;
             Toast.message := "Registration failed. Please try again later.";
             Toast.type := Toast.error |}
    end.
Proof.
  unfold state_after. rewrite handleSubmit_run. by destruct (outcome page s).
Qed.

Lemma outcome_already_registered (page : Page) (s : State) :
  no_address (address page) = false ->
  says (reply_to page s) "This wallet is already registered" = true ->
  outcome page s = already_registered.
Proof.
  intros Haddress Hsays. unfold outcome. rewrite Haddress, Hsays.
  by destruct (reply_to page s) as [|[] [|]].
Qed.

Lemma outcome_failed (page : Page) (s : State) :
  no_address (address page) = false ->
  fails (reply_to page s) = true ->
  outcome page s = failed.
Proof.
  intros Haddress Hfails. unfold outcome. rewrite Haddress.
  destruct (reply_to page s) as [|[] [data|]]; try done.
  cbn [accepts]. cbn [fails] in Hfails.
  apply negb_true_iff in Hfails. by rewrite Hfails.
Qed.

(** C4: without a connected wallet address the submit handler sets the
    error to WALLET_NOT_CONNECTED and returns; the run performs no
    network call, whatever the endpoint would have answered. *)
Theorem handleSubmit_without_wallet (page : Page) (s : State) :
  no_address (address page) = true ->
  (run (handleSubmit page) s).1 = Normal () /\
  error (state_after (handleSubmit page) s) =
    {| type := Some WALLET_NOT_CONNECTED;
       message := "Please connect your wallet first" |} /\
  filter is_fetch (actions_of (handleSubmit page) s) = [] /\
  actions_of (handleSubmit page) s = [preventDefault].
Proof.
  intros Haddress. unfold state_after, actions_of. rewrite handleSubmit_run.
  unfold outcome. rewrite Haddress. done.
Qed.

(** C6: with a connected wallet, a non-ok response whose message is
    "This wallet is already registered" leaves both the warning toast and
    the error ALREADY_REGISTERED, and the banner of that error offers the
    login link and no "Try Again" button. *)
Theorem handleSubmit_already_registered (page : Page) (s : State) :
  no_address (address page) = false ->
  says (reply_to page s) "This wallet is already registered" = true ->
  let s' := state_after (handleSubmit page) s in
  toast s' =
    {| Toast.show := true;
       Toast.message := "This wallet is already registered";
       Toast.type := Toast.warning |} /\
  type (error s') = Some ALREADY_REGISTERED /\
  (exists banner,
     ErrorMessage (error s') = Some banner /\
     action banner = Some (Link "/login" "Go to Login") /\
     forall label onClick, action banner <> Some (Button label onClick)).
Proof.
  intros Haddress Hsays s'. subst s'.
  rewrite state_after_handleSubmit, (outcome_already_registered page s Haddress Hsays).
  split; [done|]. split; [done|]. eexists. split; [reflexivity|]. by split.
Qed.

(** C7: with a connected wallet, a non-ok response with any other
    message, or a request that throws, leaves the error toast and the
    error REGISTRATION_FAILED; the banner offers "Try Again", and
    invoking it resets the error to none. *)
Theorem handleSubmit_registration_failed (page : Page) (s : State) :
  no_address (address page) = false ->
  fails (reply_to page s) = true ->
  let s' := state_after (handleSubmit page) s in
  toast s' =
    {| Toast.show := true;
       Toast.message := "Registration failed. Please try again later.";
       Toast.type := Toast.error |} /\
  type (error s') = Some REGISTRATION_FAILED /\
  (exists banner onClick,
     ErrorMessage (error s') = Some banner /\
     action banner = Some (Button "Try Again" onClick) /\
     error (state_after onClick s') = {| type := None; message := "" |}).
Proof.
  intros Haddress Hfails s'. subst s'.
  rewrite state_after_handleSubmit, (outcome_failed page s Haddress Hfails).
  split; [done|]. split; [done|]. do 2 eexists. split; [reflexivity|]. by split.
Qed.

(** C3, as stated, fails: after an already-registered response the
    warning toast and the error banner are both active. *)
Lemma handleSubmit_two_active :
  ~ exactly_one_active
      (state_after (handleSubmit (Fixtures.connected_page Fixtures.taken_reply)) initial).
Proof. unfold exactly_one_active. vm_compute. discriminate. Qed.

(** C3, amended: after every completed run of the submit handler at
    least one of the error banner, a visible success toast and a visible
    warning toast is active.  Exactly one is active after a registration
    that succeeded (the success toast, with no error) or failed (the
    banner of REGISTRATION_FAILED; the toast shown is an error toast);
    after an already-registered response two are active together, the
    warning toast and the banner of ALREADY_REGISTERED; after a submit
    without a wallet the banner of WALLET_NOT_CONNECTED is active beside
    whichever success or warning toast was visible before, the toast
    being left as it was. *)
Theorem handleSubmit_active (page : Page) (s : State) :
  let s' := state_after (handleSubmit page) s in
  (run (handleSubmit page) s).1 = Normal () /\
  1 <= active_count s' /\
  match outcome page s with
  | registered =>
      type (error s') = None /\
      toast_visible Toast.success s' = true /\
      toast_visible Toast.warning s' = false /\
      active_count s' = 1
  | failed =>
      type (error s') = Some REGISTRATION_FAILED /\
      toast_visible Toast.error s' = true /\
      toast_visible Toast.success s' = false /\
      toast_visible Toast.warning s' = false /\
      active_count s' = 1
  | already_registered =>
      type (error s') = Some ALREADY_REGISTERED /\
      banner_active s' = true /\
      toast_visible Toast.warning s' = true /\
      toast_visible Toast.success s' = false /\
      active_count s' = 2
  | no_wallet =>
      type (error s') = Some WALLET_NOT_CONNECTED /\
      banner_active s' = true /\
      toast s' = toast s /\
      active_count s' = 1 + stale_toasts s
  end.
Proof.
  intros s'. subst s'. rewrite state_after_handleSubmit, handleSubmit_run.
  split; [done|]. destruct (outcome page s); cbn; (split; [lia|done]).
Qed.

(** C8: the skills are the raw text split on commas, each segment
    trimmed of white space, empty segments kept; "React, TypeScript,
    Node.js" gives three skills and "React," gives "React" and the empty
    skill. *)
Theorem handleSkillsChange_skills (value : string) (s : State) :
  let s' := state_after (handleSkillsChange value) s in
  (exists segments,
     Str.join "," segments = value /\
     Forall (fun segment => Str.contains "," segment = false) segments /\
     length segments = S (Str.count "," value) /\
     (forall others, others <> [] ->
        Forall (fun segment => Str.contains "," segment = false) others ->
        Str.join "," others = value -> others = segments) /\
     Forall2 Str.trimmed segments (skills (formData s')) /\
     skills (formData s') = map Str.trim segments) /\
  skills (formData (state_after (handleSkillsChange "React, TypeScript, Node.js") s))
    = ["React"; "TypeScript"; "Node.js"] /\
  skills (formData (state_after (handleSkillsChange "React,") s)) = ["React"; ""].
Proof.
  intros s'. split; [|by split].
  exists (Str.split "," value).
  split; [apply StrFacts.join_split|].
  split; [apply StrFacts.split_separator_free|].
  split; [apply StrFacts.length_split|].
  split.
  { intros others Hne Hfree <-. symmetry. by apply StrFacts.split_join. }
  split; [|done].
  subst s'. unfold state_after, run, handleSkillsChange. run_handler.
  cbn [formData skills]. induction (Str.split "," value) as [|segment segments IH].
  - constructor.
  - cbn [map]. constructor; [apply StrFacts.trim_trimmed|apply IH].
Qed.

End RegistrationFacts.

(** ** The theorems of the route at concrete requests *)

Module ApprovalExamples.
Import Js Viem Approval Fixtures.

Lemma POST_arbitrum_five_example :
  carries_frame_data arbitrum_five /\
  POST arbitrum_five =
    {| status := 200;
       body := Descriptor
         {| chainId := "eip155:421614";
            method := "eth_sendTransaction";
            params :=
              {| abi := USDCABI;
                 to := "0x75faf114eafb1BDbe2F0316DF893fd58CE46AA4d";
                 data := "approve(0x00000000000000000000000000000000000000a2,5000000)" |} |} |}.
Proof.
  assert (Hreq : carries_frame_data arbitrum_five) by (split; reflexivity).
  split; [exact Hreq|].
  rewrite (ApprovalFacts.POST_arbitrum_five arbitrum_five
             "approve(0x00000000000000000000000000000000000000a2,5000000)" Hreq);
    reflexivity.
Defined.

Lemma POST_bad_request_example :
  configuration (resolved_network unsupported_chain) = None /\
  POST unsupported_chain = bad_request.
Proof.
  assert (Hnone : configuration (resolved_network unsupported_chain) = None)
    by reflexivity.
  split; [exact Hnone|].
  apply (ApprovalFacts.POST_bad_request_iff unsupported_chain). auto.
Defined.

Lemma POST_defaults_example :
  carries_frame_data (frame None None) /\
  parseUnits (resolved_amount (frame None None)) 6 = Normal 1000000%Z /\
  POST (frame None None) =
    {| status := 200;
       body := Descriptor
         {| chainId := "eip155:11155420";
            method := "eth_sendTransaction";
            params :=
              {| abi := USDCABI;
                 to := "0x5fd84259d66Cd46123540766Be93DFE6D43130D7";
                 data := "approve(0x00000000000000000000000000000000000000a1,1000000)" |} |} |}.
Proof.
  assert (Hreq : carries_frame_data (frame None None)) by (split; reflexivity).
  split; [exact Hreq|].
  destruct (ApprovalFacts.POST_defaults (frame None None) Hreq)
    as [Hnetwork HinputText].
  destruct (Hnetwork eq_refl) as (_ & _ & Hresponse).
  destruct (HinputText eq_refl) as (_ & Hamt & _).
  split; [exact Hamt|].
  rewrite (Hresponse 1000000%Z
             "approve(0x00000000000000000000000000000000000000a1,1000000)");
    reflexivity.
Defined.

Lemma POST_empty_strings_default_example :
  carries_frame_data (frame (Some "") (Some "")) /\
  configuration (resolved_network (frame (Some "") (Some ""))) = Some optimism_config /\
  POST (frame (Some "") (Some "")) =
    {| status := 200;
       body := Descriptor
         {| chainId := "eip155:11155420";
            method := "eth_sendTransaction";
            params :=
              {| abi := USDCABI;
                 to := "0x5fd84259d66Cd46123540766Be93DFE6D43130D7";
                 data := "approve(0x00000000000000000000000000000000000000a1,1000000)" |} |} |}.
Proof.
  assert (Hreq : carries_frame_data (frame (Some "") (Some "")))
    by (split; reflexivity).
  split; [exact Hreq|].
  destruct (ApprovalFacts.POST_empty_strings_default _ Hreq)
    as [Hnetwork HinputText].
  destruct (Hnetwork eq_refl) as (_ & Hconfig & _).
  destruct (HinputText eq_refl) as (_ & _ & Hresponse).
  split; [exact Hconfig|].
  rewrite (Hresponse optimism_config
             "approve(0x00000000000000000000000000000000000000a1,1000000)");
    reflexivity.
Defined.

Lemma POST_depends_on_network_and_inputText_example :
  carries_frame_data arbitrum_five /\ carries_frame_data arbitrum_five_other /\
  POST arbitrum_five = POST arbitrum_five_other.
Proof.
  assert (Hreq1 : carries_frame_data arbitrum_five) by (split; reflexivity).
  assert (Hreq2 : carries_frame_data arbitrum_five_other) by (split; reflexivity).
  split; [exact Hreq1|]. split; [exact Hreq2|].
  apply (ApprovalFacts.POST_depends_on_network_and_inputText _ _ Hreq1 Hreq2);
    reflexivity.
Defined.

End ApprovalExamples.

(** ** The theorems of the registration page at concrete pages *)

Module RegistrationExamples.
Import Js Registration Fixtures.

Lemma handleSubmit_without_wallet_example :
  no_address (address walletless_page) = true /\
  error (state_after (handleSubmit walletless_page) initial) =
    {| type := Some WALLET_NOT_CONNECTED;
       message := "Please connect your wallet first" |} /\
  actions_of (handleSubmit walletless_page) initial = [preventDefault].
Proof.
  split; [reflexivity|].
  destruct (RegistrationFacts.handleSubmit_without_wallet walletless_page initial eq_refl)
    as (_ & Herror & _ & Hactions).
  split; [exact Herror|exact Hactions].
Defined.

Lemma handleSubmit_already_registered_example :
  no_address (address (connected_page taken_reply)) = false /\
  says (reply_to (connected_page taken_reply) initial)
    "This wallet is already registered" = true /\
  type (error (state_after (handleSubmit (connected_page taken_reply)) initial))
    = Some ALREADY_REGISTERED.
Proof.
  split; [reflexivity|]. split; [reflexivity|].
  apply (RegistrationFacts.handleSubmit_already_registered
           (connected_page taken_reply) initial eq_refl eq_refl).
Defined.

Lemma handleSubmit_registration_failed_example :
  no_address (address (connected_page broken_reply)) = false /\
  fails (reply_to (connected_page broken_reply) initial) = true /\
  type (error (state_after (handleSubmit (connected_page broken_reply)) initial))
    = Some REGISTRATION_FAILED.
Proof.
  split; [reflexivity|]. split; [reflexivity|].
  apply (RegistrationFacts.handleSubmit_registration_failed
           (connected_page broken_reply) initial eq_refl eq_refl).
Defined.

End RegistrationExamples.

(** * Further properties *)

(** ** Numerals *)

Module NumeralFacts.
Import Js Viem StrFacts ViemFacts.

Lemma digits_no_dot (s : string) : Str.all_digits s = true -> Str.contains "." s = false.
Proof.
  induction s as [|c s IH]; [done|]. cbn [Str.all_digits Str.contains]. intros Hs.
  apply andb_true_iff in Hs as [Hc Hs]. by rewrite (digit_not_dot c Hc), (IH Hs).
Qed.

Lemma digits_dot_digits_whole (s : string) :
  Str.all_digits s = true -> digits_dot_digits s = true.
Proof.
  induction s as [|c s IH]; [done|]. cbn [Str.all_digits digits_dot_digits].
  intros Hs. apply andb_true_iff in Hs as [-> Hs]. by apply IH.
Qed.

Lemma digits_dot_digits_fraction (i f : string) :
  Str.all_digits i = true -> Str.all_digits f = true ->
  digits_dot_digits (i +:+ String "." f) = true.
Proof.
  intros Hi Hf. induction i as [|c i IH]; app_step.
  - cbn [digits_dot_digits]. change (Str.is_digit ".") with false. cbv iota.
    by rewrite Hf.
  - cbn [Str.all_digits] in Hi. apply andb_true_iff in Hi as [Hc Hi].
    cbn [digits_dot_digits]. rewrite Hc. by apply IH.
Qed.

Lemma digits_value_app (a b : string) (acc acc' : Z) :
  digits_value acc a = Some acc' -> digits_value acc (a +:+ b) = digits_value acc' b.
Proof.
  revert acc. induction a as [|c a IH]; intros acc; app_step; cbn [digits_value].
  - by intros [= ->].
  - destruct (Str.is_digit c); [apply IH|done].
Qed.

Lemma digits_value_zeros (k : nat) (acc : Z) :
  digits_value acc (Str.repeat_char "0" k) = Some (acc * 10 ^ Z.of_nat k)%Z.
Proof.
  revert acc. induction k as [|k IH]; intros acc.
  - cbn. f_equal. lia.
  - cbn [Str.repeat_char digits_value]. change (Str.is_digit "0") with true.
    cbv iota. rewrite IH. f_equal.
    change (Z.of_nat (nat_of_ascii "0") - 48)%Z with 0%Z.
    rewrite Nat2Z.inj_succ, Z.pow_succ_r by lia. lia.
Qed.

(** Digits followed by zeros write the number of the digits, scaled. *)
Lemma digits_value_scaled (d : string) (k : nat) :
  Str.all_digits d = true ->
  digits_value 0 (d +:+ Str.repeat_char "0" k)
    = Some (number_of d * 10 ^ Z.of_nat k)%Z.
Proof.
  intros Hd. destruct (digits_value_Some d 0 Hd) as (n & Hn & _); [lia|].
  rewrite (digits_value_app d _ 0 n Hn), digits_value_zeros.
  unfold number_of. by rewrite Hn.
Qed.

Lemma repeat_char_add (c : ascii) (m n : nat) :
  Str.repeat_char c (m + n) = Str.repeat_char c m +:+ Str.repeat_char c n.
Proof. induction m as [|m IH]; [done|]. cbn [Nat.add Str.repeat_char]. app_step. by rewrite IH. Qed.

(** Stripping takes away zeros at the end, and nothing else. *)
Lemma strip_trailing_zeros_spec (s : string) :
  (String.length (Str.strip_trailing_zeros s) <= String.length s)%nat /\
  s = Str.strip_trailing_zeros s
      +:+ Str.repeat_char "0"
            (String.length s - String.length (Str.strip_trailing_zeros s)).
Proof.
  induction s as [|c s [IHlen IH]]; [done|]. cbn [Str.strip_trailing_zeros].
  destruct (Str.strip_trailing_zeros s) as [|k kept] eqn:Hstrip.
  - destruct (Ascii.eqb_spec c "0") as [->|_].
    + split; [cbn; lia|]. app_step. cbn [String.length] in *.
      rewrite Nat.sub_0_r in *. cbn [Str.repeat_char]. f_equal.
      change ("" +:+ ?x) with x in IH. exact IH.
    + split; [cbn; lia|]. app_step. cbn [String.length] in *. f_equal.
      change ("" +:+ ?x) with x in IH.
      replace (S (String.length s) - 1)%nat with (String.length s - 0)%nat by lia.
      exact IH.
  - split; [cbn [String.length] in *; lia|]. app_step. f_equal.
    cbn [String.length] in *.
    replace (S (String.length s) - S (S (String.length kept)))%nat
      with (String.length s - S (String.length kept))%nat by lia.
    exact IH.
Qed.

(** Padding the stripped fraction gives the fraction, padded. *)
Lemma padEnd_strip (f : string) (width : nat) :
  (String.length f <= width)%nat ->
  Str.padEnd width "0" (Str.strip_trailing_zeros f)
    = f +:+ Str.repeat_char "0" (width - String.length f).
Proof.
  intros Hlen. destruct (strip_trailing_zeros_spec f) as [Hshort Hf].
  unfold Str.padEnd.
  set (t := Str.strip_trailing_zeros f) in *.
  assert (Hpad : f +:+ Str.repeat_char "0" (width - String.length f)
            = t +:+ Str.repeat_char "0"
                      ((String.length f - String.length t)
                       + (width - String.length f))).
  { by rewrite repeat_char_add, <- app_assoc, <- Hf. }
  rewrite Hpad. do 2 f_equal. lia.
Qed.

Lemma digits_not_signed (s : string) :
  Str.all_digits s = true -> Str.startsWith "-" s = false.
Proof.
  destruct s as [|c s]; [done|]. cbn [Str.all_digits Str.startsWith]. intros Hs.
  apply andb_true_iff in Hs as [Hc _]. by apply digit_not_minus.
Qed.

Lemma numeral_shape_unsigned (s : string) :
  Str.startsWith "-" s = false -> numeral_shape s = digits_dot_digits s.
Proof.
  destruct s as [|c s]; [done|]. cbn [Str.startsWith]. intros Hc.
  destruct (Ascii.eqb_spec c "-") as [->|Hne]; [done|].
  unfold numeral_shape.
  destruct c as [[] [] [] [] [] [] [] []]; try reflexivity. by destruct Hne.
Qed.

Lemma has_digit_app (a b : string) :
  has_digit (a +:+ b) = has_digit a || has_digit b.
Proof.
  induction a as [|c a IH]; app_step; [done|].
  cbn [has_digit]. by rewrite IH, orb_assoc.
Qed.

Lemma digits_have_digit (s : string) :
  Str.all_digits s = true -> s <> "" -> has_digit s = true.
Proof.
  destruct s as [|c s]; [done|]. cbn [Str.all_digits has_digit]. intros Hs _.
  apply andb_true_iff in Hs as [-> _]. done.
Qed.

Section parseUnits.
Context `{Engine}.

(** [parseUnits] is exact on a numeral with at most six fraction digits:
    nothing is rounded, and a minus sign is carried through. *)
Lemma parseUnits_numeral (negative : bool) (integer : string) (fraction : option string) :
  Str.all_digits integer = true ->
  Str.all_digits (default "" fraction) = true ->
  (String.length (default "" fraction) <= 6)%nat ->
  integer +:+ default "" fraction <> "" ->
  parseUnits (JStr (numeral negative integer fraction)) 6
    = Normal (base_units negative integer fraction).
Proof.
  intros Hi Hf Hlen Hdigit. set (f := default "" fraction) in *.
  set (sign := if negative then "-" else "").
  set (p := sign +:+ integer).
  assert (Hp : Str.contains "." p = false).
  { unfold p, sign. destruct negative; app_step; cbn [Str.contains];
      by rewrite digits_no_dot. }
  assert (Hsigned : Str.startsWith "-" p = negative).
  { unfold p, sign. destruct negative; app_step; [done|]. by apply digits_not_signed. }
  assert (Hinteger : (if negative then Str.slice_from 1 p else p) = integer).
  { unfold p, sign. destruct negative; app_step; [|done]. apply slice_from_1. }
  assert (Htext : numeral negative integer fraction
            = p +:+ match fraction with Some f => String "." f | None => "" end).
  { unfold numeral, p, sign. by rewrite app_assoc. }
  assert (Hshape : numeral_shape (numeral negative integer fraction) = true).
  { unfold numeral. destruct negative; app_step.
    - change (numeral_shape (String "-" ?s)) with (digits_dot_digits s).
      destruct fraction as [f'|]; [by apply digits_dot_digits_fraction|].
      rewrite app_nil_r. by apply digits_dot_digits_whole.
    - destruct fraction as [f'|].
      + rewrite numeral_shape_unsigned; [by apply digits_dot_digits_fraction|].
        destruct integer as [|c i]; [done|]. app_step.
        by apply (digits_not_signed (String c i)).
      + rewrite app_nil_r, numeral_shape_unsigned by by apply digits_not_signed.
        by apply digits_dot_digits_whole. }
  assert (Hhas : has_digit (numeral negative integer fraction) = true).
  { assert (Hsome : has_digit (integer +:+ f) = true).
    { apply digits_have_digit; [|done]. by rewrite all_digits_app, Hi, Hf. }
    rewrite has_digit_app in Hsome. unfold numeral.
    rewrite !has_digit_app. unfold f in Hsome.
    destruct fraction as [f'|].
    - change (default "" (Some f')) with f' in Hsome.
      change (has_digit (String "." f')) with (has_digit f').
      by rewrite Hsome, orb_true_r.
    - change (default "" None) with "" in Hsome.
      by rewrite Hsome, orb_true_r. }
  assert (Hnumber : decimal_number (numeral negative integer fraction) = true).
  { unfold decimal_number. by rewrite Hshape, Hhas. }
  assert (Hsplit : Str.split "." (numeral negative integer fraction)
            = p :: match fraction with Some f => [f] | None => [] end).
  { rewrite Htext. destruct fraction as [f'|].
    - rewrite split_app_separator by done. f_equal.
      apply split_free. by apply digits_no_dot.
    - rewrite app_nil_r. by apply split_free. }
  assert (Hpadded :
    Str.padEnd 6 "0"
      (Str.strip_trailing_zeros
         match p :: match fraction with Some f => [f] | None => [] end with
         | _ :: f' :: _ => f'
         | _ => "0"
         end)
    = f +:+ Str.repeat_char "0" (6 - String.length f)).
  { destruct fraction as [f'|]; [by apply padEnd_strip|done]. }
  assert (Hshort :
    (6 <? String.length
            (Str.strip_trailing_zeros
               match p :: match fraction with Some f => [f] | None => [] end with
               | _ :: f' :: _ => f'
               | _ => "0"
               end))%nat = false).
  { apply Nat.ltb_ge. destruct fraction as [f'|]; [|cbn; lia].
    destruct (strip_trailing_zeros_spec f') as [Hshort _]. cbn in Hlen |- *.
    unfold f in Hlen. cbn in Hlen. lia. }
  unfold parseUnits. cbn [to_string]. rewrite bind_Normal, Hnumber. cbn [negb].
  rewrite Hsplit. cbv zeta. rewrite Hsigned, Hinteger.
  unfold scale. change (6 =? 0)%nat with false. cbv iota.
  rewrite Hshort, bind_Normal. cbv beta iota. rewrite Hpadded.
  assert (Hdigits : Str.all_digits (integer +:+ f) = true)
    by by rewrite all_digits_app, Hi, Hf.
  assert (Hvalue : digits_value 0 (integer +:+ f +:+ Str.repeat_char "0" (6 - String.length f))
            = Some (number_of (integer +:+ f) * 10 ^ (6 - Z.of_nat (String.length f)))%Z).
  { rewrite <- app_assoc, digits_value_scaled by done.
    do 3 f_equal. lia. }
  unfold base_units. fold f. destruct negative.
  - change ("-" +:+ ?x) with (String "-" x).
    destruct (integer +:+ f +:+ Str.repeat_char "0" (6 - String.length f))
      as [|c rest] eqn:Hrest.
    { apply (f_equal String.length) in Hrest.
      rewrite !length_app, length_repeat_char in Hrest. cbn in Hrest. lia. }
    cbn [BigInt]. rewrite Hvalue. f_equal; lia.
  - change ("" +:+ ?x) with x. rewrite BigInt_unsigned.
    + rewrite Hvalue. f_equal; lia.
    + apply digits_not_signed.
      by rewrite !all_digits_app, Hi, Hf, all_digits_repeat_zero.
Qed.

(** A text without a digit, such as a sign or a dot alone, is refused. *)
Lemma parseUnits_digitless (s : string) :
  has_digit s = false ->
  parseUnits (JStr s) 6 = Throw (LibraryError "InvalidDecimalNumberError").
Proof.
  intros Hs. unfold parseUnits, decimal_number. cbn [to_string].
  by rewrite bind_Normal, Hs, andb_false_r.
Qed.

End parseUnits.

End NumeralFacts.

(** ** The approval route, beyond the specification *)

Module ApprovalMore.
Import Js Viem Approval ViemFacts ApprovalFacts NumeralFacts.

Section route.
Context `{Engine} `{Imports}.

Lemma or_else_falsy (v : value) (fallback : json) :
  truthy v = false -> or_else v fallback = fallback.
Proof. unfold or_else. destruct v; [by intros ->|done]. Qed.

Lemma or_else_truthy (j fallback : json) :
  truthy (Some j) = true -> or_else (Some j) fallback = j.
Proof. unfold or_else. by intros ->. Qed.

Lemma POST_no_configuration (req : NextRequest) :
  configuration (resolved_network req) = None -> POST req = bad_request.
Proof.
  intros Hnone.
  destruct (POST_cases req) as [[_ (config & ? & ? & Hconfig & _)]|[Hbad _]];
    [congruence|done].
Qed.

Lemma POST_invalid_amount (req : NextRequest) :
  valid_decimal_numeral (resolved_amount req) = false -> POST req = bad_request.
Proof.
  intros Hinvalid.
  destruct (POST_cases req) as [[_ (? & amt & ? & _ & Hamt & _)]|[Hbad _]]; [|done].
  destruct (parseUnits_rejects _ Hinvalid) as [e He]. congruence.
Qed.

Lemma POST_bare_request :
  POST bare_request = try_catch (after_guard undefined undefined) (fun _ => bad_request).
Proof. by rewrite POST_after_guard. Qed.

Lemma POST_defaulted (req : NextRequest) :
  carries_frame_data req ->
  truthy (field (untrustedData_of req) "network") = false ->
  truthy (field (untrustedData_of req) "inputText") = false ->
  POST req = POST bare_request.
Proof.
  intros Hreq Hnetwork HinputText.
  rewrite (POST_after_guard req Hreq), POST_bare_request. unfold after_guard.
  by rewrite !(or_else_falsy _ _ Hnetwork), !(or_else_falsy _ _ HinputText).
Qed.

(** X1: a body that is no JSON object, or whose [untrustedData] or
    [trustedData] is [null], [false], [0] or the empty string, is
    answered like one that lacks the part: with the 400 response. *)
Theorem POST_rejects_malformed_parts (req : NextRequest) (j : json) :
  parsed req = Some j /\ is_object j = false \/
  untrustedData_of req = Some j /\ j ∈ [JNull; JBool false; JNum 0; JStr ""] \/
  trustedData_of req = Some j /\ j ∈ [JNull; JBool false; JNum 0; JStr ""] ->
  POST req = bad_request.
Proof.
  intros [[Hparsed Hobject]|[[Hpart Hfalsy]|[Hpart Hfalsy]]]; apply POST_guard.
  - left. unfold untrustedData_of. rewrite Hparsed. by destruct j.
  - left. rewrite Hpart.
    apply list_elem_of_In in Hfalsy. cbn in Hfalsy. by intuition subst.
  - right. rewrite Hpart.
    apply list_elem_of_In in Hfalsy. cbn in Hfalsy. by intuition subst.
Qed.

(** X2: the two defaults apply to every falsy value, not to a missing
    field only: when [untrustedData.network] and
    [untrustedData.inputText] are each [undefined], [null], [false], [0]
    or the empty string, the response is that of a body with neither
    field. *)
Theorem POST_falsy_fields_default (req : NextRequest) :
  carries_frame_data req ->
  truthy (field (untrustedData_of req) "network") = false ->
  truthy (field (untrustedData_of req) "inputText") = false ->
  resolved_network req = JStr "optimism-sepolia" /\
  resolved_amount req = JStr "1" /\
  POST req = POST bare_request.
Proof.
  intros Hreq Hnetwork HinputText. unfold resolved_network, resolved_amount.
  rewrite (or_else_falsy _ _ Hnetwork), (or_else_falsy _ _ HinputText).
  split; [done|]. split; [done|]. by apply POST_defaulted.
Qed.

(** X3: an [untrustedData] that is truthy but no object (a number, [true],
    a string, an array) passes the guard; it has neither field, so the
    response is that of the defaults. *)
Theorem POST_non_object_untrustedData (req : NextRequest) (j : json) :
  untrustedData_of req = Some j ->
  is_object j = false ->
  truthy (Some j) = true ->
  truthy (trustedData_of req) = true ->
  POST req = POST bare_request.
Proof.
  intros Hpart Hobject Htruthy Htrusted. apply POST_defaulted.
  - split; [by rewrite Hpart|done].
  - rewrite Hpart. by destruct j.
  - rewrite Hpart. by destruct j.
Qed.

(** X4: a 200 response is always for one of the two configured networks,
    named exactly, and takes chain id, USDC address and deposit contract
    from that one entry. *)
Theorem POST_200_configured_network (req : NextRequest) :
  status (POST req) = 200%Z ->
  exists amt calldata,
    parseUnits (resolved_amount req) 6 = Normal amt /\
    (to_string (resolved_network req) = Normal "optimism-sepolia" /\
     encodeFunctionData USDCABI "approve"
       [AString contractAddresses_optimismSepolia; ABigInt amt] = Normal calldata /\
     POST req = ok_response optimism_config calldata
     \/
     to_string (resolved_network req) = Normal "arbitrum-sepolia" /\
     encodeFunctionData USDCABI "approve"
       [AString contractAddresses_arbitrumSepolia; ABigInt amt] = Normal calldata /\
     POST req = ok_response arbitrum_config calldata).
Proof.
  intros Hstatus.
  destruct (POST_cases req)
    as [[_ (config & amt & calldata & Hconfig & Hamt & Hencode & Hok)]|[Hbad _]].
  2: { rewrite Hbad in Hstatus. discriminate Hstatus. }
  exists amt, calldata. split; [done|].
  unfold configuration in Hconfig.
  destruct (to_string (resolved_network req)) as [key|]; [|done].
  apply chainConfigs_Some in Hconfig as [[-> ->]|[-> ->]]; [left|right]; done.
Qed.

(** X5: a network named like a member of [Object.prototype]
    ("constructor", "toString", "__proto__", ...) finds that member in
    [chainConfigs], passes the test of line 63, and still ends in the 400
    response. *)
Theorem POST_inherited_names_rejected (req : NextRequest) (key : string) :
  carries_frame_data req ->
  to_string (resolved_network req) = Normal key ->
  key ∈ Object_prototype ->
  (exists name, element key = Some (Inherited name)) /\
  POST req = bad_request.
Proof.
  intros Hreq Hkey Hinherited.
  assert (Hnone : chainConfigs !! key = None).
  { destruct (chainConfigs !! key) as [config|] eqn:Hconfig; [|done].
    apply list_elem_of_In in Hinherited. cbn in Hinherited.
    apply chainConfigs_Some in Hconfig as [[-> _]|[-> _]];
      intuition discriminate. }
  split.
  - unfold element. rewrite Hnone. rewrite bool_decide_eq_true_2 by done.
    by exists key.
  - apply POST_no_configuration. unfold configuration. by rewrite Hkey.
Qed.

(** X6: the network is looked up by its string conversion: two bodies
    whose network values convert to the same property name, and whose
    [inputText] agree, get the same response, so a one-element array
    around the name selects the same network as the name. *)
Theorem POST_network_by_string (req1 req2 : NextRequest) :
  carries_frame_data req1 -> carries_frame_data req2 ->
  to_string (resolved_network req1) = to_string (resolved_network req2) ->
  field (untrustedData_of req1) "inputText" = field (untrustedData_of req2) "inputText" ->
  POST req1 = POST req2.
Proof.
  intros Hreq1 Hreq2 Hkey HinputText.
  rewrite (POST_after_guard req1 Hreq1), (POST_after_guard req2 Hreq2).
  unfold after_guard. fold (resolved_network req1) (resolved_network req2).
  by rewrite Hkey, HinputText.
Qed.

(** X7: an [inputText] that is truthy but no string (a number, [true],
    an array, an object) is not converted: the response is 400. *)
Theorem POST_non_string_amount_rejected (req : NextRequest) (j : json) :
  field (untrustedData_of req) "inputText" = Some j ->
  truthy (Some j) = true ->
  is_string j = false ->
  POST req = bad_request.
Proof.
  intros HinputText Htruthy Hstring. apply POST_invalid_amount.
  unfold resolved_amount. rewrite HinputText, (or_else_truthy _ _ Htruthy).
  by destruct j.
Qed.

(** X8: for an amount written in decimal digits, at least one, with at
    most six fraction digits the approved amount is exact: the digits
    without the dot, followed by the missing zeros, with no rounding; a
    minus sign is not refused by the route but carried to the encoder. *)
Theorem POST_exact_amount (req : NextRequest)
    (negative : bool) (integer : string) (fraction : option string) :
  carries_frame_data req ->
  Str.all_digits integer = true ->
  Str.all_digits (default "" fraction) = true ->
  (String.length (default "" fraction) <= 6)%nat ->
  integer +:+ default "" fraction <> "" ->
  field (untrustedData_of req) "inputText"
    = Some (JStr (numeral negative integer fraction)) ->
  parseUnits (resolved_amount req) 6 = Normal (base_units negative integer fraction) /\
  forall config calldata,
    configuration (resolved_network req) = Some config ->
    encodeFunctionData USDCABI "approve"
      [AString (contractAddress config);
       ABigInt (base_units negative integer fraction)] = Normal calldata ->
    POST req = ok_response config calldata.
Proof.
  intros Hreq Hi Hf Hlen Hdigit HinputText.
  assert (Hne : numeral negative integer fraction <> "").
  { intros Hempty. apply Hdigit. unfold numeral in Hempty.
    destruct negative; [discriminate Hempty|].
    change ("" +:+ ?x) with x in Hempty.
    destruct integer; [|discriminate Hempty].
    by destruct fraction. }
  assert (Hamt : parseUnits (resolved_amount req) 6
            = Normal (base_units negative integer fraction)).
  { unfold resolved_amount. rewrite HinputText, or_else_truthy.
    - by apply parseUnits_numeral.
    - cbn [truthy]. apply negb_true_iff. by apply String.eqb_neq. }
  split; [done|]. intros config calldata Hconfig Hencode.
  by apply (POST_ok req config (base_units negative integer fraction) calldata).
Qed.

End route.

End ApprovalMore.

(** ** Trimming, once more *)

Module TrimFacts.
Import Js StrFacts.

Lemma contains_app (c : ascii) (a b : string) :
  Str.contains c (a +:+ b) = Str.contains c a || Str.contains c b.
Proof.
  induction a as [|x a IH]; app_step; [done|].
  cbn [Str.contains]. by rewrite IH, orb_assoc.
Qed.

(** Trimming brings in no separator. *)
Lemma trim_separator_free (c : ascii) (s : string) :
  Str.contains c s = false -> Str.contains c (Str.trim s) = false.
Proof.
  destruct (trim_trimmed s) as (lead & trail & Hs & _). intros Hfree.
  rewrite Hs, !contains_app in Hfree.
  apply orb_false_iff in Hfree as [_ Hfree].
  by apply orb_false_iff in Hfree as [Hfree _].
Qed.

(** Where no white space leads, nothing is skipped. *)
Lemma skip_space_none (backwards : bool) (s : string) :
  Str.starts_in backwards s = false -> Str.skip_space backwards s = s.
Proof.
  destruct s as [|a [|b [|c s]]]; cbn [Str.starts_in Str.skip_space]; [done|..].
  - by intros ->.
  - intros Hs. apply orb_false_iff in Hs as [-> ->]. done.
  - intros Hs. apply orb_false_iff in Hs as [Hs ->].
    apply orb_false_iff in Hs as [-> ->]. done.
Qed.

(** A string without white space at its ends is its own trim. *)
Lemma trim_fixed (s : string) :
  Str.starts_with_space s = false -> Str.ends_with_space s = false ->
  Str.trim s = s.
Proof.
  unfold Str.starts_with_space, Str.ends_with_space, Str.trim, Str.trimEnd,
    Str.trimStart.
  intros Hstart Hend.
  by rewrite (skip_space_none false s Hstart), (skip_space_none true _ Hend),
    rev_involutive.
Qed.

Lemma trim_idempotent (s : string) : Str.trim (Str.trim s) = Str.trim s.
Proof.
  destruct (trim_trimmed s) as (_ & _ & _ & _ & _ & Hstart & Hend).
  by apply trim_fixed.
Qed.

(** The bytes of white space: a character of one byte is below 33, the
    bytes of longer characters are above 127. *)
Lemma space1_byte (a : ascii) : Str.space1 a = true -> (nat_of_ascii a < 33)%nat.
Proof.
  unfold Str.space1. intros Ha. apply orb_true_iff in Ha as [Ha|Ha].
  - apply andb_true_iff in Ha as [_ Ha]. apply Nat.leb_le in Ha. lia.
  - apply Nat.eqb_eq in Ha. lia.
Qed.

Lemma space2_bytes (a b : ascii) :
  Str.space2 a b = true -> nat_of_ascii a = 194%nat /\ nat_of_ascii b = 160%nat.
Proof.
  unfold Str.space2. intros Hab. apply andb_true_iff in Hab as [Ha Hb].
  by apply Nat.eqb_eq in Ha, Hb.
Qed.

Lemma space3_bytes (a b c : ascii) :
  Str.space3 a b c = true ->
  (224 < nat_of_ascii a /\ 127 < nat_of_ascii b /\ 127 < nat_of_ascii c
   /\ nat_of_ascii b <> 194 /\ nat_of_ascii c <> 160)%nat.
Proof.
  unfold Str.space3. cbv zeta. intros Habc.
  repeat match goal with
    | H : (_ || _) = true |- _ => apply orb_true_iff in H as [H|H]
    | H : (_ && _) = true |- _ =>
        let H1 := fresh H in apply andb_true_iff in H as [H H1]
    | H : (_ =? _)%nat = true |- _ => apply Nat.eqb_eq in H
    | H : (_ <=? _)%nat = true |- _ => apply Nat.leb_le in H
    end; lia.
Qed.

Lemma byte_not_space1 (a : ascii) : (32 < nat_of_ascii a)%nat -> Str.space1 a = false.
Proof.
  intros Ha. destruct (Str.space1 a) eqn:Hspace; [|done].
  apply space1_byte in Hspace. lia.
Qed.

Lemma bytes_not_space2 (a b : ascii) :
  nat_of_ascii a <> 194%nat \/ nat_of_ascii b <> 160%nat -> Str.space2 a b = false.
Proof.
  intros Hab. destruct (Str.space2 a b) eqn:Hspace; [|done].
  apply space2_bytes in Hspace. lia.
Qed.

(** White space is skipped whole, in either reading direction. *)
Lemma skip_space_white (backwards : bool) (s : string) :
  Str.white_in backwards s -> Str.skip_space backwards s = "".
Proof.
  induction 1 as [|a s Ha _ IH|a b s Hab _ IH|a b c s Habc _ IH].
  - done.
  - cbn [Str.skip_space]. by rewrite Ha.
  - cbn [Str.skip_space]. rewrite Hab.
    assert (Str.space1 a = false) as ->; [|done].
    apply byte_not_space1. unfold Str.space2_in in Hab.
    destruct backwards; apply space2_bytes in Hab; lia.
  - cbn [Str.skip_space]. rewrite Habc.
    unfold Str.space2_in, Str.space3_in in *.
    destruct backwards; apply space3_bytes in Habc.
    + rewrite byte_not_space1, bytes_not_space2 by lia. done.
    + rewrite byte_not_space1, bytes_not_space2 by lia. done.
Qed.

(** The trim of white space is empty. *)
Lemma trim_white (s : string) : Str.white s -> Str.trim s = "".
Proof.
  unfold Str.white, Str.trim, Str.trimEnd, Str.trimStart. intros Hs.
  by rewrite (skip_space_white false s Hs).
Qed.

(** White space holds no comma. *)
Lemma white_comma_free (s : string) : Str.white s -> Str.contains "," s = false.
Proof.
  assert (Hcomma : forall a, nat_of_ascii a <> 44%nat -> Ascii.eqb a "," = false).
  { intros a Ha. by destruct (Ascii.eqb_spec a ",") as [->|]. }
  unfold Str.white.
  induction 1 as [|a s Ha _ IH|a b s Hab _ IH|a b c s Habc _ IH]; [done|..];
    cbn [Str.contains]; rewrite IH, ?orb_false_r.
  - apply space1_byte in Ha. rewrite Hcomma by lia. done.
  - apply space2_bytes in Hab as [Ha Hb]. rewrite !Hcomma by lia. done.
  - apply space3_bytes in Habc as (Ha & Hb & Hc & _). rewrite !Hcomma by lia. done.
Qed.

End TrimFacts.

(** ** The registration page, beyond the specification *)

Module RegistrationMore.
Import Js Registration StrFacts TrimFacts RegistrationFacts.

Lemma run_onChange (field : TextField) (value : string) (s : State) :
  (run (onChange field value) s).1 = Normal () /\
  actions_of (onChange field value) s = [] /\
  error (state_after (onChange field value) s) = error s /\
  loading (state_after (onChange field value) s) = loading s /\
  toast (state_after (onChange field value) s) = toast s /\
  skills (formData (state_after (onChange field value) s)) = skills (formData s) /\
  hourlyRate (formData (state_after (onChange field value) s)) = hourlyRate (formData s) /\
  field_value field (formData (state_after (onChange field value) s)) = value /\
  forall other, other <> field ->
    field_value other (formData (state_after (onChange field value) s))
      = field_value other (formData s).
Proof.
  unfold state_after, actions_of, run, onChange. run_handler.
  repeat split; try by destruct field.
  intros other Hother. by destruct field, other.
Qed.

Lemma skills_after_change (value : string) (s : State) :
  skills (formData (state_after (handleSkillsChange value) s))
    = map Str.trim (Str.split "," value).
Proof. reflexivity. Qed.

Lemma skills_unchanged (value : string) (s : State) :
  map Str.trim (Str.split "," value) = skills (formData s) ->
  state_after (handleSkillsChange value) s = s.
Proof.
  destruct s as [[] ? ? ?]. cbn [formData skills]. intros <-. reflexivity.
Qed.

Lemma outcome_connected (page : Page) (s : State) :
  no_address (address page) = false -> outcome page s <> no_wallet.
Proof.
  intros Haddress. unfold outcome. rewrite Haddress.
  destruct (accepts (reply_to page s)); [done|].
  by destruct (says (reply_to page s) "This wallet is already registered").
Qed.

(** X9: a submit attempt always settles: no exception leaves the
    handler, [loading] is cleared on every path, the form data are left
    as they were, and the submit button the page then shows is enabled
    and reads "Register". *)
Theorem handleSubmit_always_settles (page : Page) (s : State) :
  let s' := state_after (handleSubmit page) s in
  (run (handleSubmit page) s).1 = Normal () /\
  loading s' = false /\
  formData s' = formData s /\
  forall form,
    content (FreelancerRegistration page s') = RegistrationForm form ->
    submit_disabled form = false /\ submit_label form = "Register".
Proof.
  intros s'. subst s'. rewrite state_after_handleSubmit, handleSubmit_run.
  split; [done|].
  assert (Hloading :
    forall e t, loading (with_feedback s e t) = false) by done.
  destruct (outcome page s); (split; [done|]); (split; [done|]);
    intros form; unfold FreelancerRegistration; cbn [content];
    destruct (no_address (address page)); try done;
    intros [= <-]; done.
Qed.

(** X10: with a wallet connected a submit attempt sends exactly one
    request, whatever the answer: a POST to "/api/freelancer/register",
    marked as JSON, carrying the form data of the state unchanged and the
    connected address as [walletAddress]. *)
Theorem handleSubmit_one_request (page : Page) (s : State) (wallet : string) :
  address page = Some wallet -> wallet <> "" ->
  filter is_fetch (actions_of (handleSubmit page) s) =
    [ fetch "/api/freelancer/register"
        {| method := "POST";
           headers := [("Content-Type", "application/json")];
           body := {| form := formData s; walletAddress := wallet |} |} ].
Proof.
  intros Hwallet Hne. unfold actions_of. rewrite handleSubmit_run.
  assert (Haddress : no_address (address page) = false).
  { rewrite Hwallet. unfold no_address. cbn. apply negb_false_iff, negb_true_iff.
    by apply String.eqb_neq. }
  pose proof (outcome_connected page s Haddress) as Houtcome.
  unfold request. rewrite Hwallet. by destruct (outcome page s).
Qed.

(** X11: the navigation to "/home" is scheduled after a successful
    registration only: then once, after the request, with a delay of 3000
    ms, beside the success toast and a cleared error; in every other
    outcome no timer is started. *)
Theorem handleSubmit_navigation (page : Page) (s : State) :
  let s' := state_after (handleSubmit page) s in
  (outcome page s = registered ->
     actions_of (handleSubmit page) s
       = [preventDefault; request page s; setTimeout_router_push "/home" 3000] /\
     type (error s') = None /\
     toast_visible Toast.success s' = true) /\
  (outcome page s <> registered ->
     filter is_timer (actions_of (handleSubmit page) s) = []).
Proof.
  intros s'. subst s'. unfold actions_of.
  rewrite state_after_handleSubmit, handleSubmit_run.
  split.
  - by intros ->.
  - intros Hother. by destruct (outcome page s).
Qed.

(** X12: with a wallet connected, the feedback of earlier attempts does
    not leak into the next one: the state after a submit depends on the
    form data and the answer only, not on the error, toast or loading
    flag the submit started from. *)
Theorem handleSubmit_forgets_feedback (page : Page) (s1 s2 : State) :
  no_address (address page) = false ->
  formData s1 = formData s2 ->
  state_after (handleSubmit page) s1 = state_after (handleSubmit page) s2.
Proof.
  intros Haddress Hform. rewrite !state_after_handleSubmit.
  assert (Houtcome : outcome page s1 = outcome page s2).
  { unfold outcome, reply_to. by rewrite Hform. }
  pose proof (outcome_connected page s1 Haddress) as Hconnected.
  rewrite <- Houtcome. unfold with_feedback. rewrite Hform.
  by destruct (outcome page s1).
Qed.

(** X13: closing the toast hides it and keeps its message and severity,
    the error and the form data, and does nothing outside the state.
    After a submit and a closed toast the error banner alone is left, and
    after a successful registration nothing is. *)
Theorem onClose_after_submit (page : Page) (s : State) :
  let s1 := state_after (handleSubmit page) s in
  let s2 := state_after onClose s1 in
  actions_of onClose s1 = [] /\
  Toast.show (toast s2) = false /\
  Toast.message (toast s2) = Toast.message (toast s1) /\
  Toast.type (toast s2) = Toast.type (toast s1) /\
  error s2 = error s1 /\ formData s2 = formData s1 /\ loading s2 = loading s1 /\
  active_count s2 = match outcome page s with registered => 0 | _ => 1 end.
Proof.
  intros s1 s2. subst s1 s2. rewrite state_after_handleSubmit.
  by destruct (outcome page s).
Qed.

(** X14: "Try Again" only clears the banner: it sends no request and
    starts no timer, it keeps the form data, and the error toast of the
    failed attempt stays visible. *)
Theorem try_again_only_clears (page : Page) (s : State) :
  no_address (address page) = false ->
  fails (reply_to page s) = true ->
  let s' := state_after (handleSubmit page) s in
  exists shown onClick,
    ErrorMessage (error s') = Some shown /\
    action shown = Some (Button "Try Again" onClick) /\
    (run onClick s').1 = Normal () /\
    actions_of onClick s' = [] /\
    ErrorMessage (error (state_after onClick s')) = None /\
    formData (state_after onClick s') = formData s /\
    toast_visible Toast.error (state_after onClick s') = true.
Proof.
  intros Haddress Hfails s'. subst s'.
  rewrite state_after_handleSubmit, (outcome_failed page s Haddress Hfails).
  do 2 eexists. split; [reflexivity|]. split; [reflexivity|]. done.
Qed.

(** X15: the page shows the form exactly when a wallet address is
    available, and the prompt to connect otherwise.  A submit of the
    form it shows therefore never ends in WALLET_NOT_CONNECTED and always
    sends its one request. *)
Theorem form_needs_wallet (page : Page) (s : State) :
  (content (FreelancerRegistration page s) = ConnectWallet
   <-> no_address (address page) = true) /\
  forall form,
    content (FreelancerRegistration page s) = RegistrationForm form ->
    outcome page s <> no_wallet /\
    type (error (state_after (onSubmit form) s)) <> Some WALLET_NOT_CONNECTED /\
    filter is_fetch (actions_of (onSubmit form) s) = [request page s].
Proof.
  unfold FreelancerRegistration. cbn [content].
  destruct (no_address (address page)) eqn:Haddress.
  - split; [done|]. by intros form.
  - split; [by split|]. intros form [= <-]. cbn [onSubmit].
    pose proof (outcome_connected page s Haddress) as Hconnected.
    split; [done|]. unfold actions_of.
    rewrite state_after_handleSubmit, handleSubmit_run.
    by destruct (outcome page s).
Qed.

(** X16: changing the skills text changes the skills only: the other
    form fields, the error, the loading flag and the toast stay, nothing
    is done outside the state, and the list of skills is never empty. *)
Theorem handleSkillsChange_only_skills (value : string) (s : State) :
  let s' := state_after (handleSkillsChange value) s in
  (run (handleSkillsChange value) s).1 = Normal () /\
  actions_of (handleSkillsChange value) s = [] /\
  error s' = error s /\ loading s' = loading s /\ toast s' = toast s /\
  (forall field, field_value field (formData s') = field_value field (formData s)) /\
  hourlyRate (formData s') = hourlyRate (formData s) /\
  skills (formData s') <> [].
Proof.
  intros s'. subst s'. do 5 (split; [done|]).
  split; [by intros []|]. split; [done|].
  rewrite skills_after_change. intros Hempty.
  apply (f_equal length) in Hempty. rewrite length_map, length_split in Hempty.
  discriminate Hempty.
Qed.

(** X17: the skills survive a round trip: joining them with commas and
    entering that text again gives the same state. *)
Theorem handleSkillsChange_round_trip (value : string) (s : State) :
  let s1 := state_after (handleSkillsChange value) s in
  state_after (handleSkillsChange (Str.join "," (skills (formData s1)))) s1 = s1.
Proof.
  intros s1.
  assert (Hskills : map Str.trim (Str.split "," (Str.join "," (skills (formData s1))))
            = skills (formData s1)).
  { subst s1. rewrite skills_after_change.
    rewrite split_join.
    - rewrite map_map. apply map_ext. intros segment. apply trim_idempotent.
    - intros Hempty. apply (f_equal length) in Hempty.
      rewrite length_map, length_split in Hempty. discriminate Hempty.
    - apply Forall_map. eapply Forall_impl; [apply split_separator_free|].
      intros segment. apply trim_separator_free. }
  by apply skills_unchanged.
Qed.

(** X18: a skills text that is empty or white space only yields one
    skill, the empty one, and not an empty list. *)
Theorem handleSkillsChange_blank (value : string) (s : State) :
  Str.white value ->
  skills (formData (state_after (handleSkillsChange value) s)) = [""].
Proof.
  intros Hwhite. rewrite skills_after_change.
  rewrite (split_free "," value (white_comma_free value Hwhite)).
  cbn [map]. by rewrite trim_white.
Qed.

(** X19: what is typed is what is sent: after a text field and the
    skills text have been edited, the request of a submit carries the
    typed text in that field, the parsed skills, every other field as it
    was, and the connected address. *)
Theorem typed_is_sent (page : Page) (s : State) (wallet : string)
    (field : TextField) (text skills_text : string) :
  address page = Some wallet -> wallet <> "" ->
  let s1 := state_after (onChange field text) s in
  let s2 := state_after (handleSkillsChange skills_text) s1 in
  exists init,
    filter is_fetch (actions_of (handleSubmit page) s2)
      = [fetch "/api/freelancer/register" init] /\
    walletAddress (body init) = wallet /\
    field_value field (form (body init)) = text /\
    skills (form (body init)) = map Str.trim (Str.split "," skills_text) /\
    hourlyRate (form (body init)) = hourlyRate (formData s) /\
    forall other, other <> field ->
      field_value other (form (body init)) = field_value other (formData s).
Proof.
  intros Hwallet Hne s1 s2.
  assert (Haddress : no_address (address page) = false).
  { rewrite Hwallet. unfold no_address. cbn. apply negb_false_iff, negb_true_iff.
    by apply String.eqb_neq. }
  pose proof (outcome_connected page s2 Haddress) as Hconnected.
  eexists. split.
  { unfold actions_of. rewrite handleSubmit_run. unfold request. rewrite Hwallet.
    by destruct (outcome page s2). }
  cbn [body form walletAddress]. subst s1 s2.
  repeat split; try by destruct field.
  intros other Hother. by destruct field, other.
Qed.

(** X20: the order in which two different inputs are filled in does not
    matter, be they two text fields or a text field and the skills. *)
Theorem edits_commute (s : State) (f g : TextField) (v w skills_text : string) :
  f <> g ->
  state_after (onChange g w) (state_after (onChange f v) s)
    = state_after (onChange f v) (state_after (onChange g w) s) /\
  state_after (handleSkillsChange skills_text) (state_after (onChange f v) s)
    = state_after (onChange f v) (state_after (handleSkillsChange skills_text) s).
Proof.
  intros Hfg. split; [by destruct f, g|by destruct f].
Qed.

End RegistrationMore.

(** ** The further properties at concrete requests and pages *)

Module ApprovalMoreExamples.
Import Js Viem Approval Fixtures.

Lemma POST_rejects_malformed_parts_example :
  untrustedData_of (raw_frame (JStr "") (JObj [])) = Some (JStr "") /\
  POST (raw_frame (JStr "") (JObj [])) = bad_request.
Proof.
  split; [reflexivity|].
  apply (ApprovalMore.POST_rejects_malformed_parts _ (JStr "")).
  right. left. split; [reflexivity|]. repeat constructor.
Defined.

Lemma POST_falsy_fields_default_example :
  carries_frame_data
    (raw_frame (JObj [("network", JNull); ("inputText", JNum 0)]) (JObj [])) /\
  POST (raw_frame (JObj [("network", JNull); ("inputText", JNum 0)]) (JObj []))
    = POST bare_request.
Proof.
  assert (Hreq : carries_frame_data
            (raw_frame (JObj [("network", JNull); ("inputText", JNum 0)]) (JObj [])))
    by (split; reflexivity).
  split; [exact Hreq|].
  apply (ApprovalMore.POST_falsy_fields_default _ Hreq eq_refl eq_refl).
Defined.

Lemma POST_non_object_untrustedData_example :
  untrustedData_of (raw_frame (JNum 7) (JBool true)) = Some (JNum 7) /\
  POST (raw_frame (JNum 7) (JBool true)) = POST bare_request.
Proof.
  split; [reflexivity|].
  apply (ApprovalMore.POST_non_object_untrustedData _ (JNum 7));
    reflexivity.
Defined.

Lemma POST_200_configured_network_example :
  status (POST arbitrum_five) = 200%Z /\
  exists calldata, POST arbitrum_five = ok_response arbitrum_config calldata.
Proof.
  assert (Hstatus : status (POST arbitrum_five) = 200%Z) by reflexivity.
  split; [exact Hstatus|].
  destruct (ApprovalMore.POST_200_configured_network arbitrum_five Hstatus)
    as (amt & calldata & _ & [(Hkey & _)|(_ & _ & Hok)]).
  - discriminate Hkey.
  - by exists calldata.
Defined.

Lemma POST_inherited_names_rejected_example :
  carries_frame_data (frame None (Some "constructor")) /\
  POST (frame None (Some "constructor")) = bad_request.
Proof.
  assert (Hreq : carries_frame_data (frame None (Some "constructor")))
    by (split; reflexivity).
  split; [exact Hreq|].
  apply (ApprovalMore.POST_inherited_names_rejected _ "constructor" Hreq eq_refl).
  constructor.
Defined.

Lemma POST_network_by_string_example :
  carries_frame_data
    (raw_frame (JObj [("network", JArr [JStr "arbitrum-sepolia"]);
                      ("inputText", JStr "5")]) (JObj [])) /\
  POST (raw_frame (JObj [("network", JArr [JStr "arbitrum-sepolia"]);
                         ("inputText", JStr "5")]) (JObj []))
    = POST arbitrum_five.
Proof.
  assert (Hreq : carries_frame_data
            (raw_frame (JObj [("network", JArr [JStr "arbitrum-sepolia"]);
                              ("inputText", JStr "5")]) (JObj [])))
    by (split; reflexivity).
  assert (Hother : carries_frame_data arbitrum_five) by (split; reflexivity).
  split; [exact Hreq|].
  apply (ApprovalMore.POST_network_by_string _ _ Hreq Hother); reflexivity.
Defined.

Lemma POST_non_string_amount_rejected_example :
  field (untrustedData_of (raw_frame (JObj [("inputText", JNum 5)]) (JObj [])))
    "inputText" = Some (JNum 5) /\
  POST (raw_frame (JObj [("inputText", JNum 5)]) (JObj [])) = bad_request.
Proof.
  split; [reflexivity|].
  apply (ApprovalMore.POST_non_string_amount_rejected _ (JNum 5)); reflexivity.
Defined.

Lemma POST_exact_amount_example :
  carries_frame_data (frame (Some "12.5") None) /\
  parseUnits (resolved_amount (frame (Some "12.5") None)) 6 = Normal 12500000%Z.
Proof.
  assert (Hreq : carries_frame_data (frame (Some "12.5") None))
    by (split; reflexivity).
  split; [exact Hreq|].
  destruct (ApprovalMore.POST_exact_amount (frame (Some "12.5") None)
              false "12" (Some "5") Hreq eq_refl eq_refl) as [Hamt _].
  - cbn. lia.
  - discriminate.
  - reflexivity.
  - exact Hamt.
Defined.

End ApprovalMoreExamples.

Module RegistrationMoreExamples.
Import Js Registration Fixtures.

Lemma handleSubmit_always_settles_example :
  content (FreelancerRegistration (connected_page broken_reply)
             (state_after (handleSubmit (connected_page broken_reply)) retried))
    = RegistrationForm
        {| onSubmit := handleSubmit (connected_page broken_reply);
           onSkillsChange := handleSkillsChange;
           onTextChange := onChange;
           shown := fun field => field_value field (formData retried);
           submit_disabled := false;
           submit_label := "Register" |} /\
  loading (state_after (handleSubmit (connected_page broken_reply)) retried) = false.
Proof.
  split; [reflexivity|].
  apply (RegistrationMore.handleSubmit_always_settles
           (connected_page broken_reply) retried).
Defined.

Lemma handleSubmit_one_request_example :
  address (connected_page welcome_reply)
    = Some "0x00000000000000000000000000000000000000b1" /\
  length (filter is_fetch
            (actions_of (handleSubmit (connected_page welcome_reply)) retried)) = 1%nat.
Proof.
  split; [reflexivity|].
  rewrite (RegistrationMore.handleSubmit_one_request
             (connected_page welcome_reply) retried
             "0x00000000000000000000000000000000000000b1" eq_refl);
    [reflexivity|discriminate].
Defined.

Lemma handleSubmit_navigation_example :
  outcome (connected_page welcome_reply) retried = registered /\
  actions_of (handleSubmit (connected_page welcome_reply)) retried
    = [preventDefault; request (connected_page welcome_reply) retried;
       setTimeout_router_push "/home" 3000] /\
  outcome (connected_page broken_reply) retried <> registered /\
  filter is_timer (actions_of (handleSubmit (connected_page broken_reply)) retried) = [].
Proof.
  split; [reflexivity|].
  destruct (RegistrationMore.handleSubmit_navigation
              (connected_page welcome_reply) retried) as [Hyes _].
  destruct (RegistrationMore.handleSubmit_navigation
              (connected_page broken_reply) retried) as [_ Hno].
  split; [exact (proj1 (Hyes eq_refl))|].
  assert (Hother : outcome (connected_page broken_reply) retried <> registered)
    by discriminate.
  split; [exact Hother|exact (Hno Hother)].
Defined.

Lemma handleSubmit_forgets_feedback_example :
  no_address (address (connected_page welcome_reply)) = false /\
  state_after (handleSubmit (connected_page welcome_reply)) retried
    = state_after (handleSubmit (connected_page welcome_reply))
        {| formData := formData retried; error := error initial;
           loading := true; toast := toast initial |}.
Proof.
  split; [reflexivity|].
  apply (RegistrationMore.handleSubmit_forgets_feedback
           (connected_page welcome_reply)); reflexivity.
Defined.

Lemma try_again_only_clears_example :
  no_address (address (connected_page broken_reply)) = false /\
  fails (reply_to (connected_page broken_reply) retried) = true /\
  exists shown onClick,
    ErrorMessage (error (state_after (handleSubmit (connected_page broken_reply)) retried))
      = Some shown /\
    action shown = Some (Button "Try Again" onClick) /\
    actions_of onClick
      (state_after (handleSubmit (connected_page broken_reply)) retried) = [].
Proof.
  split; [reflexivity|]. split; [reflexivity|].
  destruct (RegistrationMore.try_again_only_clears
              (connected_page broken_reply) retried eq_refl eq_refl)
    as (shown & onClick & Hshown & Haction & _ & Hactions & _).
  by exists shown, onClick.
Defined.

Lemma form_needs_wallet_example :
  content (FreelancerRegistration walletless_page initial) = ConnectWallet /\
  (exists form,
     content (FreelancerRegistration (connected_page taken_reply) initial)
       = RegistrationForm form) /\
  outcome (connected_page taken_reply) initial <> no_wallet.
Proof.
  destruct (RegistrationMore.form_needs_wallet walletless_page initial)
    as [Hprompt _].
  destruct (RegistrationMore.form_needs_wallet (connected_page taken_reply) initial)
    as [_ Hform].
  split; [by apply Hprompt|].
  split; [by eexists|].
  exact (proj1 (Hform _ eq_refl)).
Defined.

Lemma handleSkillsChange_blank_example :
  Str.white " " /\
  skills (formData (state_after (handleSkillsChange " ") retried)) = [""].
Proof.
  assert (Hwhite : Str.white " ").
  { apply Str.white_1; [reflexivity|apply Str.white_nil]. }
  split; [exact Hwhite|].
  apply (RegistrationMore.handleSkillsChange_blank " " retried Hwhite).
Defined.

Lemma typed_is_sent_example :
  address (connected_page welcome_reply)
    = Some "0x00000000000000000000000000000000000000b1" /\
  exists init,
    filter is_fetch
      (actions_of (handleSubmit (connected_page welcome_reply))
         (state_after (handleSkillsChange "Rocq, OCaml")
            (state_after (onChange bio_field "Proves programs.") retried)))
      = [fetch "/api/freelancer/register" init] /\
    bio (form (body init)) = "Proves programs." /\
    skills (form (body init)) = ["Rocq"; "OCaml"].
Proof.
  split; [reflexivity|].
  destruct (RegistrationMore.typed_is_sent (connected_page welcome_reply) retried
              "0x00000000000000000000000000000000000000b1"
              bio_field "Proves programs." "Rocq, OCaml" eq_refl)
    as (init & Hfetch & _ & Hbio & Hskills & _); [discriminate|].
  exists init. split; [exact Hfetch|]. split; [exact Hbio|exact Hskills].
Defined.

Lemma edits_commute_example :
  email_field <> bio_field /\
  state_after (onChange bio_field "b") (state_after (onChange email_field "e") retried)
    = state_after (onChange email_field "e") (state_after (onChange bio_field "b") retried).
Proof.
  assert (Hfields : email_field <> bio_field) by discriminate.
  split; [exact Hfields|].
  exact (proj1 (RegistrationMore.edits_commute retried email_field bio_field
                  "e" "b" "" Hfields)).
Defined.

End RegistrationMoreExamples.
